(** * opencollective-frontend: the contribute-tier card and the add-funds modal

    A shallow embedding of the decision logic of

    - [src/components/contribute-cards/ContributeTier.js] (classification of a
      tier, the disabled flag, the route and its parameters), and
    - the add-funds modal (fee split, validation gate, account references,
      logged-in guard),

    followed by the properties the specification states about them.

    JavaScript numbers are IEEE 754 binary64 values: they are modelled with
    the standard library's [spec_float] at precision 53 and maximal exponent
    1024, whose operations are executable; where a property compares a
    computed number with the exact value of an expression, the exact value
    is a real number.  Objects used as maps (route
    parameters, account references, validation errors) are [gmap]s keyed by
    the property name. *)

From Stdlib Require Import Reals Lra Psatz.
From Stdlib Require Import ZArith Lia Bool.
From Stdlib Require Import Floats.SpecFloat.
From stdpp Require Import base option gmap strings.

Local Open Scope Z_scope.

(** ** Part I: the model *)

(** *** JavaScript values and the built-ins the components use *)

Module Js.

(** binary64 *)
Definition prec : Z := 53.
Definition emax : Z := 1024.

Definition NaN : spec_float := S754_nan.

(** The number denoted by an integer literal such as [100] or [0]. *)
Definition num (z : Z) : spec_float := binary_normalize prec emax z 0 false.

(** The operators [*], [/], [-], [+] and [<] on numbers. *)
Definition mul (x y : spec_float) : spec_float := SFmul prec emax x y.
Definition div (x y : spec_float) : spec_float := SFdiv prec emax x y.
Definition sub (x y : spec_float) : spec_float := SFsub prec emax x y.
Definition add (x y : spec_float) : spec_float := SFadd prec emax x y.
Definition ltb (x y : spec_float) : bool := SFltb x y.

(** The values of [spec_float] that are binary64 numbers: the mantissa of a
    finite one is normalised and its exponent in range. *)
Definition is_binary64 (x : spec_float) : bool := valid_binary prec emax x.

(** A property that holds a number, [null], or is absent ([undefined]):
    what PropTypes.number and the form's initial values allow. *)
Inductive value : Type :=
| Undefined
| Null
| Number (x : spec_float).

(** ToNumber of ECMAScript, on these values. *)
Definition ToNumber (v : value) : spec_float :=
  match v with
  | Undefined => NaN
  | Null => S754_zero false
  | Number x => x
  end.

(** The global [isNaN]: ToNumber of the argument is NaN. *)
Definition isNaN (v : value) : bool :=
  match ToNumber v with
  | S754_nan => true
  | _ => false
  end.

(** ToBoolean: [undefined], [null], [+0], [-0] and [NaN] are falsy. *)
Definition truthy (v : value) : bool :=
  match v with
  | Undefined | Null => false
  | Number (S754_zero _) | Number S754_nan => false
  | Number _ => true
  end.

(** [v === 0]: no coercion, and [-0 === 0]. *)
Definition strict_eq_zero (v : value) : bool :=
  match v with
  | Number (S754_zero _) => true
  | _ => false
  end.

(** ToBoolean of an optional string: absent and empty are falsy. *)
Definition truthy_string (s : option string) : bool :=
  match s with
  | Some s => negb (String.eqb s EmptyString)
  | None => false
  end.

(** ToBoolean of an optional boolean. *)
Definition truthy_bool (b : option bool) : bool :=
  match b with
  | Some b => b
  | None => false
  end.

(** The signed mantissa of a finite number [(-1)^s * m * 2^e]. *)
Definition signed (s : bool) (m : positive) : Z := cond_Zopp s (Zpos m).

(** floor(x + 1/2) for x = sm * 2^e with e < 0, in exact arithmetic. *)
Definition floor_plus_half (sm e : Z) : Z :=
  let d := 2 ^ (- e) in (2 * sm + d) / (2 * d).

(** [Math.round]: the integral number closest to the argument, the one
    closer to +infinity on a tie; NaN, the infinities, the zeros and the
    numbers that are already integral are returned as they are, and a
    result of zero keeps the sign of the argument. *)
Definition Math_round (x : spec_float) : spec_float :=
  match x with
  | S754_finite s m e =>
      if e <? 0 then
        let n := floor_plus_half (signed s m) e in
        if n =? 0 then S754_zero s else num n
      else x
  | _ => x
  end.

(** [represents y n]: the number [y] is the integer [n]. *)
Definition represents (y : spec_float) (n : Z) : Prop :=
  match y with
  | S754_zero _ => n = 0
  | S754_finite s m e =>
      if e <? 0 then signed s m = n * 2 ^ (- e) else n = signed s m * 2 ^ e
  | _ => False
  end.

(** [nearest_integer x y]: [y] is [x] rounded to the nearest integer.  For
    a finite [x = sm * 2^e] with a fractional part ([e < 0]), [y] is an
    integer [n] with [-1/2 < n - x <= 1/2] (a tie goes up); without one
    [y] is the integer [x] itself; zeros, infinities and NaN are kept. *)
Definition nearest_integer (x y : spec_float) : Prop :=
  match x with
  | S754_finite s m e =>
      exists n : Z,
        represents y n /\
        if e <? 0
        then - 2 ^ (- e) < 2 * (n * 2 ^ (- e) - signed s m) <= 2 ^ (- e)
        else n = signed s m * 2 ^ e
  | _ => y = x
  end.

(** The number a rounding step ends with, read off its final mantissa
    and exponent (the last [match] of [binary_round_aux]). *)
Definition of_mantissa (s : bool) (m e : Z) : spec_float :=
  match m with
  | Z0 => S754_zero s
  | Zpos p => if e <=? emax - prec then S754_finite s p e else S754_infinity s
  | Zneg _ => S754_nan
  end.

(** What a statement completes with: a value, or a thrown TypeError
    (reading a property of [undefined] or [null]). *)
Inductive completion (A : Type) : Type :=
| Normal (a : A)
| ThrowTypeError.
Arguments Normal {A} a.
Arguments ThrowTypeError {A}.

End Js.

(** *** lib/constants: the two enumerations the tier card imports *)

(** Modelled from the spec: lib/constants/contribution-types is not among the
    sources; these are the members the card refers to, pairwise distinct
    (section 4.1 lists them as the seven categories; its PASSED is the
    source's [TIER_PASSED]). *)
Module ContributionTypes.
Inductive t : Type :=
| TIER_PASSED
| FINANCIAL_GOAL
| PRODUCT
| TICKET
| MEMBERSHIP
| FINANCIAL_RECURRING
| FINANCIAL_ONE_TIME.

Definition eqb (a b : t) : bool :=
  match a, b with
  | TIER_PASSED, TIER_PASSED
  | FINANCIAL_GOAL, FINANCIAL_GOAL
  | PRODUCT, PRODUCT
  | TICKET, TICKET
  | MEMBERSHIP, MEMBERSHIP
  | FINANCIAL_RECURRING, FINANCIAL_RECURRING
  | FINANCIAL_ONE_TIME, FINANCIAL_ONE_TIME => true
  | _, _ => false
  end.
End ContributionTypes.

(** Modelled from the spec: lib/constants/tiers-types is not among the
    sources; a tier's [type] is a string and the card compares it with these
    three members. *)
Module TierTypes.
Definition PRODUCT : string := "PRODUCT".
Definition TICKET : string := "TICKET".
Definition MEMBERSHIP : string := "MEMBERSHIP".
End TierTypes.

(** *** The records the card receives (ContributeTier.propTypes) *)

Module Stats.
Record t : Type := mk {
  totalRecurringDonations : Js.value;
  totalDonated : Js.value;
  availableQuantity : Js.value
}.
End Stats.

Module Tier.
(** [endsAt] is the instant the tier's date string denotes, in milliseconds
    since the epoch; [type] is read by the card although propTypes does not
    list it. *)
Record t : Type := mk {
  id : spec_float;
  slug : string;
  name : string;
  description : option string;
  currency : option string;
  type : option string;
  interval : option string;
  amountType : option string;
  endsAt : option Z;
  goal : Js.value;
  minimumAmount : Js.value;
  amount : Js.value;
  maxQuantity : Js.value;
  stats : Stats.t
}.
End Tier.

Module ParentCollective.
Record t : Type := mk { slug : string }.
End ParentCollective.

Module Collective.
(** [endsAt] is the end date of an event-type collective. *)
Record t : Type := mk {
  slug : string;
  currency : string;
  isActive : option bool;
  parentCollective : option ParentCollective.t;
  endsAt : option Z
}.
End Collective.

(** A value of the [routeParams] object: slugs and verbs are strings, the
    tier id is a number. *)
Inductive param : Type :=
| PString (s : string)
| PNumber (x : spec_float).

(** The props the card hands to [Contribute] that the specification speaks
    about. *)
Module ContributeProps.
Record t : Type := mk {
  route : string;
  routeParams : gmap string param;
  type : ContributionTypes.t;
  disableCTA : bool;
  goal : Js.value;
  currency : string;
  interval : option string
}.
End ContributeProps.

(** *** components/contribute-cards/ContributeTier.js *)

Module ContributeTier.

Definition getContributionTypeFromTier (tier : Tier.t) (isPassed : bool)
  : ContributionTypes.t :=
  if isPassed then ContributionTypes.TIER_PASSED
  else if Js.truthy (Tier.goal tier) then ContributionTypes.FINANCIAL_GOAL
  else if bool_decide (Tier.type tier = Some TierTypes.PRODUCT) then ContributionTypes.PRODUCT
  else if bool_decide (Tier.type tier = Some TierTypes.TICKET) then ContributionTypes.TICKET
  else if bool_decide (Tier.type tier = Some TierTypes.MEMBERSHIP) then ContributionTypes.MEMBERSHIP
  else if Js.truthy_string (Tier.interval tier) then ContributionTypes.FINANCIAL_RECURRING
  else ContributionTypes.FINANCIAL_ONE_TIME.

Section Component.
(** [isTierExpired] (lib/tier-utils) and [isPastEvent] (lib/events) are
    imported from files that are not among the sources: the card is
    modelled for any two such helpers, of which only the truth value of
    the result is used. *)
Variable isTierExpired : Tier.t -> bool.
Variable isPastEvent : Collective.t -> bool.

Variable collective : Collective.t.
Variable tier : Tier.t.

(** [tier.currency || collective.currency] *)
Definition currency : string :=
  match Tier.currency tier with
  | Some c => if Js.truthy_string (Some c) then c else Collective.currency collective
  | None => Collective.currency collective
  end.

Definition isFlexibleAmount : bool :=
  bool_decide (Tier.amountType tier = Some "FLEXIBLE"%string).

Definition minAmount : Js.value :=
  if isFlexibleAmount then Tier.minimumAmount tier else Tier.amount tier.

Definition raised : Js.value :=
  if Js.truthy_string (Tier.interval tier)
  then Stats.totalRecurringDonations (Tier.stats tier)
  else Stats.totalDonated (Tier.stats tier).

Definition tierIsExpired : bool := isTierExpired tier.

Definition tierType : ContributionTypes.t :=
  getContributionTypeFromTier tier tierIsExpired.

Definition hasNoneLeft : bool :=
  Js.strict_eq_zero (Stats.availableQuantity (Tier.stats tier)).

Definition canContributeToCollective : bool :=
  Js.truthy_bool (Collective.isActive collective) && negb (isPastEvent collective).

Definition isDisabled : bool :=
  negb canContributeToCollective || tierIsExpired || hasNoneLeft.

(** The [route] and [routeParams] pair; reading [.slug] of an absent
    [parentCollective] throws. *)
Definition routing : Js.completion (string * gmap string param) :=
  if ContributionTypes.eqb tierType ContributionTypes.TICKET then
    match Collective.parentCollective collective with
    | Some parent =>
        Js.Normal
          ("orderEventTier"%string,
           <["collectiveSlug"%string := PString (ParentCollective.slug parent)]>
           (<["verb"%string := PString "events"]>
           (<["eventSlug"%string := PString (Collective.slug collective)]>
           (<["tierId"%string := PNumber (Tier.id tier)]> ∅))))
    | None => Js.ThrowTypeError
    end
  else
    Js.Normal
      ("orderCollectiveTierNew"%string,
       <["collectiveSlug"%string := PString (Collective.slug collective)]>
       (<["verb"%string := PString "contribute"]>
       (<["tierSlug"%string := PString (Tier.slug tier)]>
       (<["tierId"%string := PNumber (Tier.id tier)]> ∅)))).

Definition ContributeTier : Js.completion ContributeProps.t :=
  match routing with
  | Js.Normal (route, routeParams) =>
      Js.Normal
        {| ContributeProps.route := route;
           ContributeProps.routeParams := routeParams;
           ContributeProps.type := tierType;
           ContributeProps.disableCTA := isDisabled;
           ContributeProps.goal := Tier.goal tier;
           ContributeProps.currency := currency;
           ContributeProps.interval := Tier.interval tier |}
  | Js.ThrowTypeError => Js.ThrowTypeError
  end.
End Component.

End ContributeTier.

(** Modelled from the spec: lib/tier-utils is not among the sources; section
    4.1 has a tier expired when "its end date, if present, is in the past".
    The clock is the argument [now]. *)
Module TierUtils.
Definition isTierExpired (now : Z) (tier : Tier.t) : bool :=
  match Tier.endsAt tier with
  | Some ends => ends <? now
  | None => false
  end.
End TierUtils.

(** Modelled from the spec: lib/events is not among the sources; a collective
    is a past event when its own end date is present and in the past. *)
Module Events.
Definition isPastEvent (now : Z) (collective : Collective.t) : bool :=
  match Collective.endsAt collective with
  | Some ends => ends <? now
  | None => false
  end.
End Events.

(** *** The records the add-funds modal works on *)

(** An account's [id]: an opaque string (API v2), a number (API v1), or
    absent. *)
Inductive ident : Type :=
| IdString (s : string)
| IdNumber (x : spec_float)
| IdUndefined.

Module Account.
(** The host, the collective, and the accounts the picker returns. *)
Record t : Type := mk {
  id : ident;
  legacyId : Js.value;
  currency : option string;
  hostFeePercent : Js.value
}.
End Account.

Module User.
Record t : Type := mk { isRoot : bool }.
End User.

(** A value of a form field, as [get(values, name)] returns it. *)
Inductive field_value : Type :=
| FNumber (v : Js.value)
| FString (s : string)
| FAccount (a : option Account.t)
| FAbsent.

Module FormValues.
(** The form state. [fromAccount] is [null] ([None]) until an account is
    picked; [account] is absent ([None]) unless the caller supplies it. *)
Record t : Type := mk {
  amount : Js.value;
  hostFeePercent : Js.value;
  platformFeePercent : Js.value;
  description : string;
  fromAccount : option Account.t;
  account : option Account.t
}.

Definition get (values : t) (field : string) : field_value :=
  if String.eqb field "amount" then FNumber (amount values)
  else if String.eqb field "hostFeePercent" then FNumber (hostFeePercent values)
  else if String.eqb field "platformFeePercent" then FNumber (platformFeePercent values)
  else if String.eqb field "description" then FString (description values)
  else if String.eqb field "fromAccount" then FAccount (fromAccount values)
  else if String.eqb field "account" then FAccount (account values)
  else FAbsent.
End FormValues.

(** The marker stored under a field's name: ERROR.FORM_FIELD_REQUIRED. *)
Inductive error_marker : Type := FORM_FIELD_REQUIRED.

(** Modelled from the spec: lib/form-utils is not among the sources; section
    4.2 requires "amount present and non-null, source-account present,
    description non-empty", and "absence of any required field yields a
    field-keyed set of error markers". *)
Module FormUtils.
Definition isMissing (v : field_value) : bool :=
  match v with
  | FNumber Js.Undefined | FNumber Js.Null => true
  | FNumber (Js.Number _) => false
  | FString s => String.eqb s EmptyString
  | FAccount None => true
  | FAccount (Some _) => false
  | FAbsent => true
  end.

Definition requireFields (values : FormValues.t) (fields : list string)
  : gmap string error_marker :=
  foldl
    (fun errors field =>
       if isMissing (FormValues.get values field)
       then <[field := FORM_FIELD_REQUIRED]> errors
       else errors)
    ∅ fields.
End FormUtils.

(** Modelled from the spec: the form library is an external collaborator; the
    form is valid when the last validation produced no error marker, and the
    render function receives that flag with the values. *)
Module Formik.
Record bag : Type := mk {
  values : FormValues.t;
  isSubmitting : bool;
  isValid : bool;
  dirty : bool
}.

Definition noErrors (errors : gmap string error_marker) : bool :=
  Nat.eqb (size errors) 0.

Definition state (validate : FormValues.t -> gmap string error_marker)
    (values : FormValues.t) (dirty isSubmitting : bool) : bag :=
  {| values := values;
     isSubmitting := isSubmitting;
     isValid := noErrors (validate values);
     dirty := dirty |}.
End Formik.

(** The variables of the AddFunds mutation. *)
Module AddFundsVariables.
Record t : Type := mk {
  amount_valueInCents : Js.value;
  fromAccount : gmap string ident;
  account : gmap string ident;
  description : string;
  hostFeePercent : Js.value;
  platformFeePercent : Js.value
}.
End AddFundsVariables.

(** What the render function of the form shows: the three derived amounts
    with the percentages in their labels, and the state of the submit
    button. *)
Module FormView.
Record t : Type := mk {
  hostFeePercent : Js.value;
  platformFeePercent : Js.value;
  hostFee : spec_float;
  platformFee : spec_float;
  netAmount : spec_float;
  submitDisabled : bool
}.
End FormView.

(** The element the modal returns when a user is logged in. *)
Module ModalElement.
Record t : Type := mk {
  initialValues : FormValues.t;
  validate : FormValues.t -> gmap string error_marker;
  onSubmit : FormValues.t -> Js.completion AddFundsVariables.t;
  children : Formik.bag -> FormView.t
}.
End ModalElement.

(** The spec's [computeSplit] result. *)
Module Split.
Record t : Type := mk {
  hostFee : spec_float;
  platformFee : spec_float;
  netAmount : spec_float
}.
End Split.

(** *** The add-funds modal *)

Module AddFundsModal.

(** The argument of [getInitialValues]: an object with some of the fields,
    [None] where the key is not there. *)
Record overrides : Type := mk_overrides {
  o_amount : option Js.value;
  o_hostFeePercent : option Js.value;
  o_platformFeePercent : option Js.value;
  o_description : option string;
  o_fromAccount : option (option Account.t);
  o_account : option Account.t
}.

Definition getInitialValues (values : overrides) : FormValues.t :=
  {| FormValues.amount := default Js.Null (o_amount values);
     FormValues.hostFeePercent := default Js.Null (o_hostFeePercent values);
     FormValues.platformFeePercent := default (Js.Number (Js.num 0)) (o_platformFeePercent values);
     FormValues.description := default EmptyString (o_description values);
     FormValues.fromAccount := default None (o_fromAccount values);
     FormValues.account := o_account values |}.

Definition validate (values : FormValues.t) : gmap string error_marker :=
  FormUtils.requireFields values ["amount"; "fromAccount"; "description"]%string.

(** Build an account reference. Compatible with accounts from V1 and V2.
    Reading [input.id] of [null] or [undefined] throws. *)
Definition buildAccountReference (input : option Account.t)
  : Js.completion (gmap string ident) :=
  match input with
  | Some input =>
      match Account.id input with
      | IdString s => Js.Normal {[ "id"%string := IdString s ]}
      | other => Js.Normal {[ "legacyId"%string := other ]}
      end
  | None => Js.ThrowTypeError
  end.

(** The [variables] object of [onSubmit]. *)
Definition onSubmit (values : FormValues.t) : Js.completion AddFundsVariables.t :=
  match buildAccountReference (FormValues.fromAccount values) with
  | Js.Normal fromAccount =>
      match buildAccountReference (FormValues.account values) with
      | Js.Normal account =>
          Js.Normal
            {| AddFundsVariables.amount_valueInCents := FormValues.amount values;
               AddFundsVariables.fromAccount := fromAccount;
               AddFundsVariables.account := account;
               AddFundsVariables.description := FormValues.description values;
               AddFundsVariables.hostFeePercent := FormValues.hostFeePercent values;
               AddFundsVariables.platformFeePercent := FormValues.platformFeePercent values |}
      | Js.ThrowTypeError => Js.ThrowTypeError
      end
  | Js.ThrowTypeError => Js.ThrowTypeError
  end.

Section Render.
Variable defaultHostFeePercent : Js.value.
Variable values : FormValues.t.

Definition hostFeePercent : Js.value :=
  if Js.isNaN (FormValues.hostFeePercent values)
  then defaultHostFeePercent
  else FormValues.hostFeePercent values.

Definition platformFeePercent : Js.value :=
  if Js.isNaN (FormValues.platformFeePercent values)
  then Js.Number (Js.num 0)
  else FormValues.platformFeePercent values.

Definition hostFee : spec_float :=
  Js.Math_round
    (Js.mul (Js.ToNumber (FormValues.amount values))
            (Js.div (Js.ToNumber hostFeePercent) (Js.num 100))).

Definition platformFee : spec_float :=
  Js.Math_round
    (Js.mul (Js.ToNumber (FormValues.amount values))
            (Js.div (Js.ToNumber platformFeePercent) (Js.num 100))).

(** [values.amount - hostFee - platformFee], the value of the last
    details line. *)
Definition netAmount : spec_float :=
  Js.sub (Js.sub (Js.ToNumber (FormValues.amount values)) hostFee) platformFee.
End Render.

(** The render function handed to the form. *)
Definition children (defaultHostFeePercent : Js.value) (bag : Formik.bag)
  : FormView.t :=
  let values := Formik.values bag in
  {| FormView.hostFeePercent := hostFeePercent defaultHostFeePercent values;
     FormView.platformFeePercent := platformFeePercent values;
     FormView.hostFee := hostFee defaultHostFeePercent values;
     FormView.platformFee := platformFee values;
     FormView.netAmount := netAmount defaultHostFeePercent values;
     FormView.submitDisabled := negb (Formik.dirty bag) || negb (Formik.isValid bag) |}.

Definition AddFundsModal (LoggedInUser : option User.t) (host collective : Account.t)
  : option ModalElement.t :=
  let defaultHostFeePercent := Account.hostFeePercent collective in
  match LoggedInUser with
  | None => None
  | Some _ =>
      Some
        {| ModalElement.initialValues :=
             getInitialValues
               {| o_amount := None;
                  o_hostFeePercent := Some defaultHostFeePercent;
                  o_platformFeePercent := None;
                  o_description := None;
                  o_fromAccount := None;
                  o_account := Some collective |};
           ModalElement.validate := validate;
           ModalElement.onSubmit := onSubmit;
           ModalElement.children := children defaultHostFeePercent |}
  end.

(** The amount times a percentage over 100, as the two fee lines compute
    it: [amount * (percent / 100)]. *)
Definition feeProduct (amount percent : Js.value) : spec_float :=
  Js.mul (Js.ToNumber amount) (Js.div (Js.ToNumber percent) (Js.num 100)).

(** The spec's contract [computeSplit(amount, hostFeePercent,
    platformFeePercent)]: the three derived amounts of a form state with
    these three fields, for a collective with the given default rate. *)
Definition computeSplit (defaultHostFeePercent amount hostFeePercent platformFeePercent : Js.value)
  : Split.t :=
  let values :=
    {| FormValues.amount := amount;
       FormValues.hostFeePercent := hostFeePercent;
       FormValues.platformFeePercent := platformFeePercent;
       FormValues.description := EmptyString;
       FormValues.fromAccount := None;
       FormValues.account := None |} in
  {| Split.hostFee := hostFee defaultHostFeePercent values;
     Split.platformFee := platformFee values;
     Split.netAmount := netAmount defaultHostFeePercent values |}.

End AddFundsModal.

(** *** The fee split in the specification's words

    The specification describes each fee as amount times percent over 100
    rounded to the nearest integer, a tie going up or to the even
    neighbour.  These definitions follow that wording, on integer amounts
    and percentages, to be compared with what the modal computes. *)

Module SplitSpec.

(** [n] is within one half of [amount * percent / 100]. *)
Definition nearest (amount percent n : Z) : Prop :=
  Z.abs (100 * n - amount * percent) <= 50.

(** [amount * percent / 100] lies half-way between two integers. *)
Definition is_tie (amount percent : Z) : bool :=
  (amount * percent) mod 100 =? 50.

(** Nearest integer, a tie going up: floor(amount * percent / 100 + 1/2). *)
Definition round_half_up (amount percent : Z) : Z :=
  (amount * percent + 50) / 100.

(** Nearest integer, a tie going to the even neighbour. *)
Definition round_half_even (amount percent : Z) : Z :=
  let q := (amount * percent) / 100 in
  let r := (amount * percent) mod 100 in
  if r <? 50 then q
  else if 50 <? r then q + 1
  else if Z.even q then q else q + 1.

End SplitSpec.

(** *** Sample inputs *)

Module Samples.

Abbreviation number z := (Js.Number (Js.num z)).

(** A tier from which the examples below are made: no end date, no goal,
    no type, a fixed amount of 5000. *)
Definition plainTier : Tier.t :=
  {| Tier.id := Js.num 42;
     Tier.slug := "backers";
     Tier.name := "backer";
     Tier.description := None;
     Tier.currency := None;
     Tier.type := None;
     Tier.interval := None;
     Tier.amountType := Some "FIXED"%string;
     Tier.endsAt := None;
     Tier.goal := Js.Undefined;
     Tier.minimumAmount := Js.Undefined;
     Tier.amount := Js.Number (Js.num 5000);
     Tier.maxQuantity := Js.Undefined;
     Tier.stats :=
       {| Stats.totalRecurringDonations := Js.Number (Js.num 0);
          Stats.totalDonated := Js.Number (Js.num 0);
          Stats.availableQuantity := Js.Null |} |}.

Definition withType (type : string) (tier : Tier.t) : Tier.t :=
  {| Tier.id := Tier.id tier; Tier.slug := Tier.slug tier; Tier.name := Tier.name tier;
     Tier.description := Tier.description tier; Tier.currency := Tier.currency tier;
     Tier.type := Some type;
     Tier.interval := Tier.interval tier; Tier.amountType := Tier.amountType tier;
     Tier.endsAt := Tier.endsAt tier; Tier.goal := Tier.goal tier;
     Tier.minimumAmount := Tier.minimumAmount tier; Tier.amount := Tier.amount tier;
     Tier.maxQuantity := Tier.maxQuantity tier; Tier.stats := Tier.stats tier |}.

Definition withGoal (goal : Js.value) (tier : Tier.t) : Tier.t :=
  {| Tier.id := Tier.id tier; Tier.slug := Tier.slug tier; Tier.name := Tier.name tier;
     Tier.description := Tier.description tier; Tier.currency := Tier.currency tier;
     Tier.type := Tier.type tier;
     Tier.interval := Tier.interval tier; Tier.amountType := Tier.amountType tier;
     Tier.endsAt := Tier.endsAt tier; Tier.goal := goal;
     Tier.minimumAmount := Tier.minimumAmount tier; Tier.amount := Tier.amount tier;
     Tier.maxQuantity := Tier.maxQuantity tier; Tier.stats := Tier.stats tier |}.

Definition withEndsAt (endsAt : option Z) (tier : Tier.t) : Tier.t :=
  {| Tier.id := Tier.id tier; Tier.slug := Tier.slug tier; Tier.name := Tier.name tier;
     Tier.description := Tier.description tier; Tier.currency := Tier.currency tier;
     Tier.type := Tier.type tier;
     Tier.interval := Tier.interval tier; Tier.amountType := Tier.amountType tier;
     Tier.endsAt := endsAt; Tier.goal := Tier.goal tier;
     Tier.minimumAmount := Tier.minimumAmount tier; Tier.amount := Tier.amount tier;
     Tier.maxQuantity := Tier.maxQuantity tier; Tier.stats := Tier.stats tier |}.

(** An active collective, and an event of it that ended at instant 1000. *)
Definition activeCollective : Collective.t :=
  {| Collective.slug := "webpack";
     Collective.currency := "USD";
     Collective.isActive := Some true;
     Collective.parentCollective := None;
     Collective.endsAt := None |}.

Definition endedEvent : Collective.t :=
  {| Collective.slug := "meetup-2019";
     Collective.currency := "USD";
     Collective.isActive := Some true;
     Collective.parentCollective := Some {| ParentCollective.slug := "webpack" |};
     Collective.endsAt := Some 1000 |}.

(** The form state [{amount: 500, fromAccount: null, description: "x"}]. *)
Definition noSourceAccount : FormValues.t :=
  {| FormValues.amount := number 500;
     FormValues.hostFeePercent := Js.Null;
     FormValues.platformFeePercent := number 0;
     FormValues.description := "x";
     FormValues.fromAccount := None;
     FormValues.account := None |}.

(** A v2 account (opaque string id, with its legacy id) and a v1 account
    (numeric id). *)
Definition accountV2 : Account.t :=
  {| Account.id := IdString "rvelja97-pkzqbgq7-qb5w3e4o-mxnky0j5";
     Account.legacyId := number 9805;
     Account.currency := Some "USD"%string;
     Account.hostFeePercent := number 10 |}.

Definition accountV1 : Account.t :=
  {| Account.id := IdNumber (Js.num 9805);
     Account.legacyId := Js.Undefined;
     Account.currency := Some "USD"%string;
     Account.hostFeePercent := number 10 |}.

End Samples.

(** *** Further operators of the language *)

Module JsOps.

(** [v > 0]: both sides are converted to numbers, NaN compares false. *)
Definition gt_zero (v : Js.value) : bool := Js.ltb (Js.num 0) (Js.ToNumber v).

(** [v || 0] *)
Definition or_zero (v : Js.value) : Js.value :=
  if Js.truthy v then v else Js.Number (Js.num 0).

(** [a === b] on numbers: IEEE equality, so NaN differs from itself and
    the two zeros are equal. *)
Definition number_eq (x y : spec_float) : bool := SFeqb x y.

(** The sign bit of a number; NaN counts as unsigned. *)
Definition signbit (x : spec_float) : bool :=
  match x with
  | S754_zero s | S754_infinity s | S754_finite s _ _ => s
  | S754_nan => false
  end.

(** Zeros and finite numbers, as opposed to the infinities and NaN. *)
Definition is_finite (x : spec_float) : bool :=
  match x with
  | S754_zero _ | S754_finite _ _ _ => true
  | _ => false
  end.

End JsOps.

(** *** The rest of the tier card: fallback description, body, tier link *)

(** The value of [minAmount && formatCurrency(minAmount, currency)]: the
    formatted text, or the falsy amount itself. *)
Inductive formatted : Type :=
| Formatted (s : string)
| Unformatted (v : Js.value).

(** The values handed to [messages.fallbackDescription]. *)
Module FallbackValues.
Record t : Type := mk {
  minAmount : Js.value;
  tierName : string;
  minAmountWithCurrency : formatted;
  interval : option string
}.
End FallbackValues.

Module ContributeTierCard.
Import ContributeTier.

Section Card.
(** [formatCurrency] (lib/currency-utils) is not among the sources, and
    [intl.formatMessage] belongs to the [intl] object the component
    receives: [formatMessage values] stands for
    [intl.formatMessage(messages.fallbackDescription, values)].  Both are
    left open. *)
Variable formatCurrency : Js.value -> string -> string.
Variable formatMessage : FallbackValues.t -> string.

Variable isTierExpired : Tier.t -> bool.
Variable isPastEvent : Collective.t -> bool.

Variable collective : Collective.t.
Variable tier : Tier.t.

Definition fallbackValues : FallbackValues.t :=
  {| FallbackValues.minAmount := JsOps.or_zero (minAmount tier);
     FallbackValues.tierName := Tier.name tier;
     FallbackValues.minAmountWithCurrency :=
       if Js.truthy (minAmount tier)
       then Formatted (formatCurrency (minAmount tier) (currency collective tier))
       else Unformatted (minAmount tier);
     FallbackValues.interval := Tier.interval tier |}.

(** [tier.description], or the formatted fallback message when the tier
    has none. *)
Definition description : string :=
  match Tier.description tier with
  | Some d => if Js.truthy_string (Some d) then d else formatMessage fallbackValues
  | None => formatMessage fallbackValues
  end.

(** [!isDisabled && minAmount > 0]: the amount is shown. *)
Definition showAmount : bool :=
  negb (isDisabled isTierExpired isPastEvent collective tier)
  && JsOps.gt_zero (minAmount tier).

(** The "Starts at" label, inside the amount block. *)
Definition showStartsAt : bool := showAmount && isFlexibleAmount tier.

(** The [params] of the "Read more" link to the tier's own page. *)
Definition readMoreParams : gmap string param :=
  <["collectiveSlug"%string := PString (Collective.slug collective)]>
  (<["verb"%string := PString "contribute"]>
  (<["tierSlug"%string := PString (Tier.slug tier)]>
  (<["tierId"%string := PNumber (Tier.id tier)]> ∅))).

End Card.

End ContributeTierCard.

(** *** The rest of the add-funds modal *)

(** The value of [account.legacyId || account.id]. *)
Inductive accountKey : Type :=
| KeyUndefined
| KeyNull
| KeyNumber (x : spec_float)
| KeyString (s : string).

Module AddFundsModalForm.

Definition keyOfId (id : ident) : accountKey :=
  match id with
  | IdString s => KeyString s
  | IdNumber x => KeyNumber x
  | IdUndefined => KeyUndefined
  end.

(** [account.legacyId || account.id] *)
Definition legacyIdOrId (account : Account.t) : accountKey :=
  match Account.legacyId account with
  | Js.Number x =>
      if Js.truthy (Js.Number x) then KeyNumber x else keyOfId (Account.id account)
  | _ => keyOfId (Account.id account)
  end.

(** [a === b] on these values. *)
Definition strict_eq (a b : accountKey) : bool :=
  match a, b with
  | KeyUndefined, KeyUndefined => true
  | KeyNull, KeyNull => true
  | KeyNumber x, KeyNumber y => JsOps.number_eq x y
  | KeyString s, KeyString t => String.eqb s t
  | _, _ => false
  end.

Definition canAddHostFee (host collective : Account.t) : bool :=
  negb (strict_eq (legacyIdOrId collective) (legacyIdOrId host)).

(** The form state after the picker's [onChange] stored an account under
    [fromAccount]. *)
Definition setFromAccount (account : Account.t) (values : FormValues.t) : FormValues.t :=
  {| FormValues.amount := FormValues.amount values;
     FormValues.hostFeePercent := FormValues.hostFeePercent values;
     FormValues.platformFeePercent := FormValues.platformFeePercent values;
     FormValues.description := FormValues.description values;
     FormValues.fromAccount := Some account;
     FormValues.account := FormValues.account values |}.

End AddFundsModalForm.

(** *** More sample inputs *)

Module CardSamples.
Import Samples.



Definition withInterval (interval : string) (tier : Tier.t) : Tier.t :=
  {| Tier.id := Tier.id tier; Tier.slug := Tier.slug tier; Tier.name := Tier.name tier;
     Tier.description := Tier.description tier; Tier.currency := Tier.currency tier;
     Tier.type := Tier.type tier;
     Tier.interval := Some interval; Tier.amountType := Tier.amountType tier;
     Tier.endsAt := Tier.endsAt tier; Tier.goal := Tier.goal tier;
     Tier.minimumAmount := Tier.minimumAmount tier; Tier.amount := Tier.amount tier;
     Tier.maxQuantity := Tier.maxQuantity tier; Tier.stats := Tier.stats tier |}.

(** An event without parent collective. *)
Definition orphanEvent : Collective.t :=
  {| Collective.slug := "meetup-2020";
     Collective.currency := "EUR";
     Collective.isActive := Some true;
     Collective.parentCollective := None;
     Collective.endsAt := None |}.

(** A form state ready to be submitted, with the host percentage cleared. *)
Definition clearedHostFee : FormValues.t :=
  {| FormValues.amount := number 1000;
     FormValues.hostFeePercent := Js.Number Js.NaN;
     FormValues.platformFeePercent := number 0;
     FormValues.description := "x";
     FormValues.fromAccount := Some accountV1;
     FormValues.account := Some accountV2 |}.

End CardSamples.

(** ** Part II: properties *)

(** *** Numbers: integers are exact, and [Math.round] rounds to nearest *)

Module JsFacts.
Import Js.

Lemma digits2_pos_iter_xO (p k : positive) :
  digits2_pos (Pos.iter xO p k) = (digits2_pos p + k)%positive.
Proof.
  induction k as [|k IH] using Pos.peano_ind.
  - simpl. lia.
  - rewrite Pos.iter_succ. simpl. rewrite IH. lia.
Qed.

Lemma Zpos_iter_xO (p k : positive) :
  Zpos (Pos.iter xO p k) = Zpos p * 2 ^ Zpos k.
Proof.
  induction k as [|k IH] using Pos.peano_ind.
  - simpl. lia.
  - rewrite Pos.iter_succ, Pos2Z.inj_succ, Z.pow_succ_r by lia.
    rewrite Pos2Z.inj_xO, IH. lia.
Qed.

(** A mantissa of [d] binary digits lies in [2^(d-1), 2^d). *)
Lemma digits2_pos_bounds (p : positive) :
  2 ^ (Zpos (digits2_pos p) - 1) <= Zpos p < 2 ^ Zpos (digits2_pos p).
Proof.
  induction p as [p IH|p IH|]; cbn [digits2_pos].
  - rewrite Pos2Z.inj_succ.
    replace (Z.succ (Zpos (digits2_pos p)) - 1) with (Z.succ (Zpos (digits2_pos p) - 1)) by lia.
    rewrite !Z.pow_succ_r by lia. lia.
  - rewrite Pos2Z.inj_succ.
    replace (Z.succ (Zpos (digits2_pos p)) - 1) with (Z.succ (Zpos (digits2_pos p) - 1)) by lia.
    rewrite !Z.pow_succ_r by lia. lia.
  - simpl. lia.
Qed.

Lemma digits2_pos_le (p : positive) (k : Z) :
  0 <= k -> Zpos p < 2 ^ k -> Zpos (digits2_pos p) <= k.
Proof.
  intros Hk Hp.
  destruct (Z.le_gt_cases (Zpos (digits2_pos p)) k) as [|Hgt]; [assumption|].
  pose proof (digits2_pos_bounds p) as [Hlo _].
  assert (2 ^ k <= 2 ^ (Zpos (digits2_pos p) - 1)) by (apply Z.pow_le_mono_r; lia).
  lia.
Qed.

(** A full mantissa is not shifted when the exponent is in range. *)
Lemma shr_fexp_full (m : positive) (e : Z) :
  Zpos (digits2_pos m) = prec -> -1074 <= e ->
  shr_fexp prec emax (Zpos m) e loc_Exact
  = ({| shr_m := Zpos m; shr_r := false; shr_s := false |}, e).
Proof.
  intros Hd He. unfold shr_fexp, fexp, emin. cbn [Zdigits2].
  rewrite Hd. unfold prec, emax.
  replace (Z.max (53 + e - 53) (3 - 1024 - 53) - e) with 0 by lia.
  reflexivity.
Qed.

Lemma binary_round_aux_full (s : bool) (m : positive) (e : Z) :
  Zpos (digits2_pos m) = prec -> -1074 <= e <= emax - prec ->
  binary_round_aux prec emax s (Zpos m) e loc_Exact = S754_finite s m e.
Proof.
  intros Hd He. unfold binary_round_aux.
  rewrite shr_fexp_full by (auto; lia).
  cbn [shr_m loc_of_shr_record round_nearest_even].
  rewrite shr_fexp_full by (auto; lia).
  cbn [shr_m].
  destruct (Z.leb_spec e (emax - prec)); [reflexivity | lia].
Qed.

(** An integer of at most 53 binary digits is normalised by a left shift,
    which keeps its value. *)
Lemma binary_round_exact (s : bool) (p : positive) :
  Zpos (digits2_pos p) <= prec ->
  exists m e,
    binary_round prec emax s p 0 = S754_finite s m e /\
    e <= 0 /\ Zpos m = Zpos p * 2 ^ (- e).
Proof.
  intros Hd. unfold binary_round, shl_align, fexp, emin.
  set (d := Zpos (digits2_pos p)) in *.
  assert (Hd1 : 1 <= d) by (unfold d; lia).
  replace (Z.max (d + 0 - prec) (3 - emax - prec)) with (d - prec)
    by (unfold prec, emax in *; lia).
  destruct (d - prec - 0) as [|q|q] eqn:Hq.
  - exists p, 0. rewrite binary_round_aux_full.
    + split; [reflexivity|]. split; [lia|]. simpl. lia.
    + fold d. lia.
    + unfold prec, emax. lia.
  - unfold prec in *. lia.
  - exists (Pos.iter xO p q), (d - prec).
    rewrite binary_round_aux_full.
    + split; [reflexivity|]. split; [lia|].
      rewrite Zpos_iter_xO. f_equal. f_equal. lia.
    + rewrite digits2_pos_iter_xO, Pos2Z.inj_add. fold d. lia.
    + unfold prec, emax in *. lia.
Qed.

(** Every integer below 2^53 in magnitude is a number, exactly. *)
Lemma num_exact (n : Z) : Z.abs n < 2 ^ 53 -> represents (num n) n.
Proof.
  intros Hn. unfold num, binary_normalize.
  destruct n as [|p|p].
  - reflexivity.
  - destruct (binary_round_exact false p) as (m & e & -> & He & Hm).
    { apply digits2_pos_le; [unfold prec; lia | exact Hn]. }
    unfold represents, signed, cond_Zopp.
    destruct (Z.ltb_spec e 0).
    + lia.
    + replace e with 0 in * by lia. simpl in *. lia.
  - destruct (binary_round_exact true p) as (m & e & -> & He & Hm).
    { apply digits2_pos_le; [unfold prec; lia | exact Hn]. }
    unfold represents, signed, cond_Zopp.
    destruct (Z.ltb_spec e 0).
    + lia.
    + replace e with 0 in * by lia. simpl in *. lia.
Qed.

(** floor(x + 1/2) is within one half of x, and a tie goes up. *)
Lemma floor_plus_half_nearest (sm e : Z) :
  e < 0 ->
  - 2 ^ (- e) < 2 * (floor_plus_half sm e * 2 ^ (- e) - sm) <= 2 ^ (- e).
Proof.
  intros He. unfold floor_plus_half.
  assert (Hd : 0 < 2 ^ (- e)) by (apply Z.pow_pos_nonneg; lia).
  set (d := 2 ^ (- e)) in *.
  pose proof (Z.div_mod (2 * sm + d) (2 * d) ltac:(lia)) as Hdm.
  pose proof (Z.mod_pos_bound (2 * sm + d) (2 * d) ltac:(lia)) as Hb.
  nia.
Qed.

(** The mantissa of a binary64 number has at most 53 digits. *)
Lemma is_binary64_mantissa (s : bool) (m : positive) (e : Z) :
  is_binary64 (S754_finite s m e) = true -> Zpos m < 2 ^ 53.
Proof.
  unfold is_binary64, valid_binary, bounded, canonical_mantissa, fexp, emin.
  intros H. apply andb_prop in H as [H _]. apply Z.eqb_eq in H.
  pose proof (digits2_pos_bounds m) as [_ Hhi].
  assert (Hle : Zpos (digits2_pos m) <= 53) by (unfold prec, emax in H; lia).
  assert (2 ^ Zpos (digits2_pos m) <= 2 ^ 53) by (apply Z.pow_le_mono_r; lia).
  lia.
Qed.

Lemma floor_plus_half_small (s : bool) (m : positive) (e : Z) :
  e < 0 -> Zpos m < 2 ^ 53 ->
  Z.abs (floor_plus_half (signed s m) e) < 2 ^ 53.
Proof.
  intros He Hm.
  pose proof (floor_plus_half_nearest (signed s m) e He) as Hn.
  assert (Hd : 2 <= 2 ^ (- e)).
  { change 2 with (2 ^ 1) at 1. apply Z.pow_le_mono_r; lia. }
  set (d := 2 ^ (- e)) in *. set (n := floor_plus_half (signed s m) e) in *.
  assert (Hs : Z.abs (signed s m) < 2 ^ 53) by (destruct s; simpl; lia).
  set (sm := signed s m) in *.
  set (B := 2 ^ 53) in *. assert (0 < B) by (unfold B; lia).
  nia.
Qed.

(** Binary digits of a non-negative integer. *)
Lemma Zdigits2_nonneg m : 0 <= Zdigits2 m.
Proof. destruct m; simpl; lia. Qed.

Lemma Zdigits2_bounds m : 0 < m -> 2 ^ (Zdigits2 m - 1) <= m < 2 ^ Zdigits2 m.
Proof. destruct m as [|p|p]; try lia. intros _. apply digits2_pos_bounds. Qed.

Lemma Zdigits2_lower m k : 0 <= k -> 2 ^ k <= m -> k + 1 <= Zdigits2 m.
Proof.
  intros Hk Hm. assert (0 < m) by (pose proof (Z.pow_pos_nonneg 2 k); lia).
  pose proof (Zdigits2_bounds m H) as [_ Hhi].
  destruct (Z.le_gt_cases (k + 1) (Zdigits2 m)); [assumption|].
  assert (2 ^ Zdigits2 m <= 2 ^ k) by (apply Z.pow_le_mono_r; lia). lia.
Qed.

Lemma Zdigits2_upper m k : 0 <= k -> 0 <= m < 2 ^ k -> Zdigits2 m <= k.
Proof.
  intros Hk Hm. destruct (Z.eq_dec m 0) as [->|]; [simpl; lia|].
  pose proof (Zdigits2_bounds m ltac:(lia)) as [Hlo _].
  destruct (Z.le_gt_cases (Zdigits2 m) k); [assumption|].
  assert (2 ^ k <= 2 ^ (Zdigits2 m - 1)) by (apply Z.pow_le_mono_r; lia). lia.
Qed.

Lemma Zdigits2_mono m1 m2 : 0 <= m1 <= m2 -> Zdigits2 m1 <= Zdigits2 m2.
Proof.
  intros H. destruct (Z.eq_dec m1 0) as [->|]; [apply Zdigits2_nonneg|].
  pose proof (Zdigits2_bounds m1 ltac:(lia)) as [Hlo _].
  pose proof (Zdigits2_lower m2 (Zdigits2 m1 - 1)) as Hl.
  pose proof (Zdigits2_nonneg m1).
  assert (1 <= Zdigits2 m1). { destruct m1; simpl in *; lia. }
  lia.
Qed.

(** A right shift of the rounding record divides the mantissa. *)
Lemma shr_1_m mrs : 0 <= shr_m mrs -> shr_m (shr_1 mrs) = shr_m mrs / 2.
Proof.
  destruct mrs as [m r s]. cbn [shr_m]. intros Hm.
  rewrite <- Z.div2_div.
  destruct m as [|[p|p|]|p]; try reflexivity. lia.
Qed.

Lemma iter_shr_1_m p : forall mrs, 0 <= shr_m mrs ->
  shr_m (SpecFloat.iter_pos shr_1 p mrs) = shr_m mrs / 2 ^ Zpos p.
Proof.
  induction p as [p IH|p IH|]; intros mrs Hm; cbn [SpecFloat.iter_pos].
  - assert (H1 : 0 <= shr_m (shr_1 mrs)) by (rewrite shr_1_m by lia; apply Z.div_pos; lia).
    assert (H2 : 0 <= shr_m (SpecFloat.iter_pos shr_1 p (shr_1 mrs))).
    { rewrite IH by lia. apply Z.div_pos; [lia|]. apply Z.pow_pos_nonneg; lia. }
    rewrite IH, IH, shr_1_m by lia.
    replace (Zpos p~1) with (1 + Zpos p + Zpos p) by lia.
    rewrite !Z.pow_add_r by lia. rewrite Z.pow_1_r.
    rewrite !Z.div_div by (try apply Z.pow_pos_nonneg; lia). f_equal. lia.
  - assert (H2 : 0 <= shr_m (SpecFloat.iter_pos shr_1 p mrs)).
    { rewrite IH by lia. apply Z.div_pos; [lia|]. apply Z.pow_pos_nonneg; lia. }
    rewrite IH, IH by lia.
    replace (Zpos p~0) with (Zpos p + Zpos p) by lia.
    rewrite !Z.pow_add_r by lia.
    rewrite !Z.div_div by (try apply Z.pow_pos_nonneg; lia). reflexivity.
  - rewrite shr_1_m by lia. reflexivity.
Qed.

Lemma Zdigits2_div_pow m n :
  0 <= m -> 0 <= n -> 0 < m / 2 ^ n -> Zdigits2 (m / 2 ^ n) = Zdigits2 m - n.
Proof.
  intros Hm Hn Hq.
  assert (Hp : 0 < 2 ^ n) by (apply Z.pow_pos_nonneg; lia).
  assert (Hm0 : 0 < m). { destruct (Z.eq_dec m 0) as [->|]; [rewrite Z.div_0_l in Hq; lia | lia]. }
  pose proof (Zdigits2_bounds m Hm0) as [Hlo Hhi].
  pose proof (Zdigits2_bounds _ Hq) as [Hlo' Hhi'].
  pose proof (Z.div_mod m (2 ^ n) ltac:(lia)) as Hdm.
  pose proof (Z.mod_pos_bound m (2 ^ n) Hp) as Hb.
  set (q := m / 2 ^ n) in *. set (d := Zdigits2 m) in *. set (d' := Zdigits2 q) in *.
  assert (1 <= d') by (unfold d'; destruct q; simpl in *; lia).
  assert (1 <= d) by (unfold d; destruct m; simpl in *; lia).
  assert (A : n + d' - 1 < d).
  { destruct (Z.lt_ge_cases (n + d' - 1) d); [assumption|].
    assert (2 ^ d <= 2 ^ (n + d' - 1)) by (apply Z.pow_le_mono_r; lia).
    replace (n + d' - 1) with (n + (d' - 1)) in * by lia.
    rewrite Z.pow_add_r in * by lia. nia. }
  assert (B : d - 1 < n + d').
  { destruct (Z.lt_ge_cases (d - 1) (n + d')); [assumption|].
    assert (2 ^ (n + d') <= 2 ^ (d - 1)) by (apply Z.pow_le_mono_r; lia).
    rewrite Z.pow_add_r in * by lia. nia. }
  lia.
Qed.

Lemma fexp_mono a b : a <= b -> fexp prec emax a <= fexp prec emax b.
Proof. unfold fexp, emin. lia. Qed.

Lemma fexp_ge_emin a : emin prec emax <= fexp prec emax a.
Proof. unfold fexp, emin. lia. Qed.

Lemma shr_m_of_loc m l : shr_m (shr_record_of_loc m l) = m.
Proof. destruct l as [|[]]; reflexivity. Qed.

Lemma round_nearest_even_bounds m l : m <= round_nearest_even m l <= m + 1.
Proof. destruct l as [|[]]; cbn; try destruct (Z.even m); lia. Qed.

(** One normalisation step: afterwards the mantissa is canonical for the
    exponent (or zero), and stays within the format when rounded up. *)
Lemma shr_fexp_canonical m e l :
  0 <= m -> e <= fexp prec emax (Zdigits2 m + e) ->
  let m' := shr_m (fst (shr_fexp prec emax m e l)) in
  let e' := snd (shr_fexp prec emax m e l) in
  0 <= m' /\
  (m' = 0 \/ fexp prec emax (Zdigits2 m' + e') = e') /\
  (forall m1, m' <= m1 -> e' <= fexp prec emax (Zdigits2 m1 + e')).
Proof.
  intros Hm Hc. unfold shr_fexp, shr.
  set (d := Zdigits2 m) in *.
  destruct (fexp prec emax (d + e) - e) as [|n|n] eqn:Hn; cbn [fst snd].
  - rewrite shr_m_of_loc. split; [lia|]. split.
    + right. fold d. lia.
    + intros m1 H1. pose proof (Zdigits2_mono m m1 ltac:(lia)).
      pose proof (fexp_mono (d + e) (Zdigits2 m1 + e) ltac:(unfold d; lia)). lia.
  - rewrite iter_shr_1_m by (rewrite shr_m_of_loc; lia). rewrite shr_m_of_loc.
    assert (Hp : 0 < 2 ^ Zpos n) by (apply Z.pow_pos_nonneg; lia).
    assert (Hq : 0 <= m / 2 ^ Zpos n) by (apply Z.div_pos; lia).
    split; [exact Hq|].
    destruct (Z.eq_dec (m / 2 ^ Zpos n) 0) as [H0|H0].
    + split; [left; exact H0|].
      intros m1 _.
      assert (Hsmall : m < 2 ^ Zpos n).
      { pose proof (Z.div_mod m (2 ^ Zpos n) ltac:(lia)) as Hdm.
        pose proof (Z.mod_pos_bound m (2 ^ Zpos n) Hp). rewrite H0 in Hdm. lia. }
      pose proof (Zdigits2_upper m (Zpos n) ltac:(lia) ltac:(lia)) as Hd. fold d in Hd.
      pose proof (fexp_ge_emin (Zdigits2 m1 + (e + Zpos n))).
      assert (e + Zpos n = emin prec emax).
      { revert Hn. unfold fexp, emin, prec, emax in *. lia. }
      lia.
    + pose proof (Zdigits2_div_pow m (Zpos n) Hm ltac:(lia) ltac:(lia)) as Hd. fold d in Hd.
      split.
      * right. rewrite Hd. replace (d - Zpos n + (e + Zpos n)) with (d + e) by lia. lia.
      * intros m1 H1. pose proof (Zdigits2_mono (m / 2 ^ Zpos n) m1 ltac:(lia)).
        pose proof (fexp_mono (d + e) (Zdigits2 m1 + (e + Zpos n)) ltac:(lia)). lia.
  - lia.
Qed.

(** Rounding always lands on a binary64 number. *)
Lemma binary_round_aux_valid s m e l :
  0 <= m -> e <= fexp prec emax (Zdigits2 m + e) ->
  is_binary64 (binary_round_aux prec emax s m e l) = true.
Proof.
  intros Hm Hc. unfold binary_round_aux.
  pose proof (shr_fexp_canonical m e l Hm Hc) as (H1 & _ & H3).
  destruct (shr_fexp prec emax m e l) as [mrs' e'] eqn:E1. cbn [fst snd] in *.
  pose proof (round_nearest_even_bounds (shr_m mrs') (loc_of_shr_record mrs')) as Hr.
  set (m1 := round_nearest_even (shr_m mrs') (loc_of_shr_record mrs')) in *.
  pose proof (shr_fexp_canonical m1 e' loc_Exact ltac:(lia) (H3 m1 ltac:(lia))) as (G1 & G2 & _).
  destruct (shr_fexp prec emax m1 e' loc_Exact) as [mrs'' e''] eqn:E2. cbn [fst snd] in *.
  destruct (shr_m mrs'') as [|p|p] eqn:Ep; try reflexivity.
  destruct (Z.leb_spec e'' (emax - prec)) as [Hle|Hgt]; [|reflexivity].
  unfold is_binary64, valid_binary, bounded, canonical_mantissa.
  destruct G2 as [G2|G2]; [discriminate|]. cbn [Zdigits2] in G2.
  rewrite G2, Z.eqb_refl. cbn. apply Z.leb_le. exact Hle.
Qed.

Lemma canonical_digits m e :
  canonical_mantissa prec emax m e = true ->
  Zpos (digits2_pos m) <= prec /\ emin prec emax <= e /\
  (Zpos (digits2_pos m) = prec \/ e = emin prec emax).
Proof.
  unfold canonical_mantissa, fexp, emin, prec, emax. intros H. apply Z.eqb_eq in H. lia.
Qed.

(** The product of two binary64 numbers is one. *)
Lemma mul_binary64 x y :
  is_binary64 x = true -> is_binary64 y = true -> is_binary64 (mul x y) = true.
Proof.
  destruct x as [sx|sx| |sx mx ex], y as [sy|sy| |sy my ey]; try reflexivity.
  unfold is_binary64 at 1 2. cbn [valid_binary]. unfold bounded.
  intros Hx Hy. apply andb_prop in Hx as [Hx _]. apply andb_prop in Hy as [Hy _].
  apply canonical_digits in Hx as (Hx1 & Hx2 & Hx3).
  apply canonical_digits in Hy as (Hy1 & Hy2 & Hy3).
  unfold mul. cbn [SFmul]. apply binary_round_aux_valid; [lia|].
  pose proof (digits2_pos_bounds mx) as [Lx _]. pose proof (digits2_pos_bounds my) as [Ly _].
  set (dx := Zpos (digits2_pos mx)) in *. set (dy := Zpos (digits2_pos my)) in *.
  assert (1 <= dx) by (unfold dx; lia). assert (1 <= dy) by (unfold dy; lia).
  assert (HD : dx + dy - 1 <= Zdigits2 (Zpos (mx * my))).
  { replace (dx + dy - 1) with ((dx - 1 + (dy - 1)) + 1) by lia.
    apply Zdigits2_lower; [lia|]. rewrite Z.pow_add_r by lia. rewrite Pos2Z.inj_mul.
    assert (0 < 2 ^ (dx - 1)) by (apply Z.pow_pos_nonneg; lia).
    assert (0 < 2 ^ (dy - 1)) by (apply Z.pow_pos_nonneg; lia). nia. }
  revert HD. generalize (Zdigits2 (Zpos (mx * my))). intros D HD.
  unfold fexp, emin, prec, emax in *. lia.
Qed.

Lemma div_core_canonical m1 e1 m2 e2 :
  0 < m1 -> 0 < m2 ->
  let '(q, e', l) := SFdiv_core_binary prec emax m1 e1 m2 e2 in
  0 <= q /\ e' <= fexp prec emax (Zdigits2 q + e').
Proof.
  intros H1 H2. unfold SFdiv_core_binary.
  set (d1 := Zdigits2 m1). set (d2 := Zdigits2 m2).
  set (e' := Z.min (fexp prec emax (d1 + e1 - (d2 + e2))) (e1 - e2)).
  set (s := e1 - e2 - e').
  assert (Hs : 0 <= s) by (unfold s, e'; lia).
  set (m' := match s with Z.pos _ => Z.shiftl m1 s | 0 => m1 | Z.neg _ => 0 end).
  assert (Hm' : m' = m1 * 2 ^ s).
  { unfold m'. destruct s as [|p|p] eqn:Es.
    - simpl. lia.
    - apply Z.shiftl_mul_pow2. lia.
    - lia. }
  destruct (Z.div_eucl m' m2) as [q r] eqn:E.
  assert (Hq : q = m' / m2) by (unfold Z.div; rewrite E; reflexivity).
  assert (Hps : 0 < 2 ^ s) by (apply Z.pow_pos_nonneg; lia).
  assert (Hq0 : 0 <= q) by (subst q; apply Z.div_pos; nia).
  split; [exact Hq0|].
  pose proof (Zdigits2_bounds m1 H1) as [L1 _]. pose proof (Zdigits2_bounds m2 H2) as [_ U2].
  fold d1 in L1. fold d2 in U2.
  assert (1 <= d1) by (unfold d1; destruct m1; simpl in *; lia).
  assert (1 <= d2) by (unfold d2; destruct m2; simpl in *; lia).
  destruct (Z.le_gt_cases 0 (d1 - 1 + s - d2)) as [Hk|Hk].
  - assert (Hlow : 2 ^ (d1 - 1 + s - d2) <= q).
    { subst q. apply Z.div_le_lower_bound; [lia|].
      assert (2 ^ (d1 - 1 + s - d2) * 2 ^ d2 = 2 ^ (d1 - 1) * 2 ^ s).
      { rewrite <- !Z.pow_add_r by lia. f_equal. lia. }
      assert (0 < 2 ^ (d1 - 1 + s - d2)) by (apply Z.pow_pos_nonneg; lia).
      nia. }
    pose proof (Zdigits2_lower q _ Hk Hlow) as HD.
    pose proof (fexp_mono (d1 + e1 - (d2 + e2)) (Zdigits2 q + e') ltac:(unfold s in *; lia)).
    unfold e' at 1. lia.
  - pose proof (fexp_ge_emin (Zdigits2 q + e')).
    assert (e' <= emin prec emax).
    { unfold s in Hk. revert Hk. unfold e'. unfold fexp, emin, prec, emax. lia. }
    lia.
Qed.

(** Every quotient is a binary64 number. *)
Lemma div_binary64 x y : is_binary64 (div x y) = true.
Proof.
  destruct x as [sx|sx| |sx mx ex], y as [sy|sy| |sy my ey]; try reflexivity.
  unfold div. cbn [SFdiv].
  pose proof (div_core_canonical (Zpos mx) ex (Zpos my) ey ltac:(lia) ltac:(lia)) as H.
  destruct (SFdiv_core_binary prec emax (Zpos mx) ex (Zpos my) ey) as [[q e'] l].
  destruct H as [Hq Hc]. apply binary_round_aux_valid; assumption.
Qed.

(** [Math.round] of a binary64 number is the nearest integer. *)
Lemma Math_round_nearest (x : spec_float) :
  is_binary64 x = true -> nearest_integer x (Math_round x).
Proof.
  destruct x as [s|s| |s m e]; try reflexivity.
  intros Hv. unfold nearest_integer, Math_round.
  destruct (Z.ltb_spec e 0) as [He|He].
  - exists (floor_plus_half (signed s m) e). split.
    + destruct (Z.eqb_spec (floor_plus_half (signed s m) e) 0) as [H0|H0].
      * exact H0.
      * apply num_exact, floor_plus_half_small;
          [exact He | exact (is_binary64_mantissa _ _ _ Hv)].
    + apply floor_plus_half_nearest, He.
  - exists (signed s m * 2 ^ e). split; [|reflexivity].
    unfold represents. destruct (Z.ltb_spec e 0); [lia | reflexivity].
Qed.

End JsFacts.

(** *** Rounding error of the multiplication and the division

    The exact values are real numbers: the finite number with mantissa
    [m] and exponent [e] is [IZR m * powerRZ 2 e]. *)

Module JsRealFacts.
Local Open Scope R_scope.

(** Powers of two, as real numbers. *)
Lemma powerRZ2_pos e : 0 < powerRZ 2 e.
Proof. apply powerRZ_lt. lra. Qed.

Lemma powerRZ2_add a b : powerRZ 2 (a + b) = powerRZ 2 a * powerRZ 2 b.
Proof. apply powerRZ_add. lra. Qed.

Lemma IZR_pow2 n : (0 <= n)%Z -> IZR (2 ^ n) = powerRZ 2 n.
Proof.
  intros Hn. destruct n as [|p|p]; [reflexivity| |lia].
  change (2 ^ Zpos p)%Z with (Z.pow_pos 2 p).
  apply Zpower_pos_powerRZ.
Qed.

Lemma powerRZ2_ge1 n : (0 <= n)%Z -> 1 <= powerRZ 2 n.
Proof.
  intros Hn. rewrite <- IZR_pow2 by exact Hn. apply IZR_le.
  pose proof (Z.pow_pos_nonneg 2 n ltac:(lia) Hn). lia.
Qed.

Lemma powerRZ2_le a b : (a <= b)%Z -> powerRZ 2 a <= powerRZ 2 b.
Proof.
  intros H. replace b with (a + (b - a))%Z by lia. rewrite powerRZ2_add.
  pose proof (powerRZ2_pos a). pose proof (powerRZ2_ge1 (b - a) ltac:(lia)). nra.
Qed.

Lemma powerRZ2_lt_inv a b : powerRZ 2 a < powerRZ 2 b -> (a < b)%Z.
Proof.
  intros H. destruct (Z.lt_ge_cases a b); [assumption|].
  pose proof (powerRZ2_le b a ltac:(lia)). lra.
Qed.

(** One normalisation step keeps every real number of the cell
    [[m, m+1] * 2^e] in the cell of the result. *)
Lemma shr_fexp_cell m e l (t : R) :
  (0 <= m)%Z ->
  IZR m * powerRZ 2 e <= t <= (IZR m + 1) * powerRZ 2 e ->
  let m' := shr_m (fst (shr_fexp Js.prec Js.emax m e l)) in
  let e' := snd (shr_fexp Js.prec Js.emax m e l) in
  (e <= e')%Z /\
  IZR m' * powerRZ 2 e' <= t <= (IZR m' + 1) * powerRZ 2 e'.
Proof.
  intros Hm Ht. unfold shr_fexp, shr.
  destruct (fexp Js.prec Js.emax (Zdigits2 m + e) - e)%Z as [|n|n]; cbn [fst snd];
    rewrite ?JsFacts.iter_shr_1_m by (rewrite JsFacts.shr_m_of_loc; lia);
    rewrite JsFacts.shr_m_of_loc; try (split; [lia | exact Ht]).
  split; [lia|].
  rewrite powerRZ2_add. rewrite <- (IZR_pow2 (Zpos n)) by lia.
  assert (Hp : (0 < 2 ^ Zpos n)%Z) by (apply Z.pow_pos_nonneg; lia).
  pose proof (Z.div_mod m (2 ^ Zpos n) ltac:(lia)) as Hdm.
  pose proof (Z.mod_pos_bound m (2 ^ Zpos n) Hp) as Hb.
  set (q := (m / 2 ^ Zpos n)%Z) in *. set (r := (m mod 2 ^ Zpos n)%Z) in *.
  set (d := (2 ^ Zpos n)%Z) in *.
  assert (H1 : IZR q * IZR d <= IZR m) by (rewrite <- mult_IZR; apply IZR_le; lia).
  assert (H2 : IZR m + 1 <= (IZR q + 1) * IZR d).
  { rewrite <- !plus_IZR, <- mult_IZR. apply IZR_le. lia. }
  pose proof (powerRZ2_pos e) as He.
  split; nra.
Qed.

(** A normalisation step that shifts everything out ends at the least
    exponent or below. *)
Lemma shr_fexp_zero m e l :
  (0 <= m)%Z -> (e <= fexp Js.prec Js.emax (Zdigits2 m + e))%Z ->
  shr_m (fst (shr_fexp Js.prec Js.emax m e l)) = 0%Z ->
  (snd (shr_fexp Js.prec Js.emax m e l) <= emin Js.prec Js.emax)%Z.
Proof.
  intros Hm Hc. unfold shr_fexp, shr.
  destruct (fexp Js.prec Js.emax (Zdigits2 m + e) - e)%Z as [|n|n] eqn:Hn; cbn [fst snd];
    rewrite ?JsFacts.iter_shr_1_m by (rewrite JsFacts.shr_m_of_loc; lia);
    rewrite JsFacts.shr_m_of_loc.
  - intros ->. cbn [Zdigits2] in *. unfold fexp, emin, Js.prec, Js.emax in *. lia.
  - intros H0.
    assert (Hp : (0 < 2 ^ Zpos n)%Z) by (apply Z.pow_pos_nonneg; lia).
    assert (Hsmall : (m < 2 ^ Zpos n)%Z).
    { pose proof (Z.div_mod m (2 ^ Zpos n) ltac:(lia)) as Hdm.
      pose proof (Z.mod_pos_bound m (2 ^ Zpos n) Hp). rewrite H0 in Hdm. lia. }
    pose proof (JsFacts.Zdigits2_upper m (Zpos n) ltac:(lia) ltac:(lia)) as Hd.
    revert Hn. unfold fexp, emin, Js.prec, Js.emax in *. lia.
  - lia.
Qed.

(** Rounding stays within two units in the last place of any real number
    in the cell of its argument. *)
Lemma binary_round_aux_error s m e l (t : R) :
  (0 <= m)%Z -> (e <= fexp Js.prec Js.emax (Zdigits2 m + e))%Z ->
  IZR m * powerRZ 2 e <= t <= (IZR m + 1) * powerRZ 2 e ->
  exists m2 e2,
    binary_round_aux Js.prec Js.emax s m e l = Js.of_mantissa s m2 e2 /\
    (0 <= m2)%Z /\
    (m2 = 0%Z -> (e2 <= emin Js.prec Js.emax)%Z) /\
    (m2 <> 0%Z -> fexp Js.prec Js.emax (Zdigits2 m2 + e2) = e2) /\
    IZR m2 * powerRZ 2 e2 - 2 * powerRZ 2 e2 <= t <= IZR m2 * powerRZ 2 e2 + 2 * powerRZ 2 e2.
Proof.
  intros Hm Hc Ht. unfold binary_round_aux.
  pose proof (shr_fexp_cell m e l t Hm Ht) as (He1 & Hcell1).
  pose proof (JsFacts.shr_fexp_canonical m e l Hm Hc) as (H1 & _ & H3).
  destruct (shr_fexp Js.prec Js.emax m e l) as [mrs' e'] eqn:E1. cbn [fst snd] in *.
  pose proof (JsFacts.round_nearest_even_bounds (shr_m mrs') (loc_of_shr_record mrs')) as Hr.
  set (m1 := round_nearest_even (shr_m mrs') (loc_of_shr_record mrs')) in *.
  assert (Hm1 : (0 <= m1)%Z) by lia.
  assert (Hc1 : (e' <= fexp Js.prec Js.emax (Zdigits2 m1 + e'))%Z) by (apply H3; lia).
  pose proof (shr_fexp_cell m1 e' loc_Exact (IZR m1 * powerRZ 2 e') Hm1) as Hcell2.
  pose proof (JsFacts.shr_fexp_canonical m1 e' loc_Exact Hm1 Hc1) as (G1 & G2 & _).
  pose proof (shr_fexp_zero m1 e' loc_Exact Hm1 Hc1) as G0.
  destruct (shr_fexp Js.prec Js.emax m1 e' loc_Exact) as [mrs'' e''] eqn:E2. cbn [fst snd] in *.
  pose proof (powerRZ2_pos e') as P1. pose proof (powerRZ2_pos e'') as P2.
  destruct Hcell2 as (He2 & Hcell2); [split; nra|].
  pose proof (powerRZ2_le e' e'' He2) as Hle.
  exists (shr_m mrs''), e''. split; [|split; [exact G1|split; [exact G0|split]]].
  - unfold Js.of_mantissa. destruct (shr_m mrs''); reflexivity.
  - intros Hne. destruct G2 as [G2|G2]; [contradiction | exact G2].
  - assert (Hm1R : IZR (shr_m mrs') <= IZR m1 <= IZR (shr_m mrs') + 1).
    { split; [apply IZR_le; lia|]. rewrite <- plus_IZR. apply IZR_le. lia. }
    split; nra.
Qed.

Lemma powerRZ2_neg n : powerRZ 2 (- n) * powerRZ 2 n = 1.
Proof. rewrite <- powerRZ2_add. replace (- n + n)%Z with 0%Z by lia. reflexivity. Qed.

Lemma powerRZ2_opp n : (0 <= n)%Z -> powerRZ 2 (- n) = / IZR (2 ^ n).
Proof. intros Hn. rewrite powerRZ_neg', IZR_pow2 by exact Hn. reflexivity. Qed.

(** In the range of the fee computation the rounded result is a normal
    number within a relative distance of 2^-51. *)
Lemma of_mantissa_normal s m2 e2 (t : R) :
  (0 <= m2)%Z ->
  (m2 = 0%Z -> (e2 <= emin Js.prec Js.emax)%Z) ->
  (m2 <> 0%Z -> fexp Js.prec Js.emax (Zdigits2 m2 + e2) = e2) ->
  IZR m2 * powerRZ 2 e2 - 2 * powerRZ 2 e2 <= t <= IZR m2 * powerRZ 2 e2 + 2 * powerRZ 2 e2 ->
  / 1024 <= t <= IZR (2 ^ 50) ->
  exists p,
    Js.of_mantissa s m2 e2 = S754_finite s p e2 /\
    Js.is_binary64 (S754_finite s p e2) = true /\
    (e2 < 0)%Z /\
    IZR (Zpos p) * powerRZ 2 e2 * (1 - / IZR (2 ^ 51)) <= t
      <= IZR (Zpos p) * powerRZ 2 e2 * (1 + / IZR (2 ^ 51)).
Proof.
  intros Hm H0 Hc Ht Hr.
  pose proof (powerRZ2_pos e2) as Hu. set (u := powerRZ 2 e2) in *.
  assert (Hlt53 : IZR m2 < IZR (2 ^ 53)).
  { apply IZR_lt. destruct (Z.eq_dec m2 0%Z) as [->|Hne]; [reflexivity|].
    specialize (Hc Hne).
    pose proof (JsFacts.Zdigits2_bounds m2 ltac:(lia)) as [_ Hhi].
    assert (Zdigits2 m2 <= 53)%Z by (revert Hc; unfold fexp, emin, Js.prec, Js.emax; lia).
    assert (2 ^ Zdigits2 m2 <= 2 ^ 53)%Z by (apply Z.pow_le_mono_r; lia). lia. }
  assert (He : (-74 < e2)%Z).
  { apply powerRZ2_lt_inv. fold u.
    replace (powerRZ 2 (-74)) with (/ IZR (2 ^ 74)).
    - assert (IZR (2 ^ 74) * / IZR (2 ^ 74) = 1) by (apply Rinv_r; apply eq_IZR_contrapositive; lia).
      assert (0 < / IZR (2 ^ 74)) by (apply Rinv_0_lt_compat; apply IZR_lt; lia).
      change (2 ^ 53)%Z with 9007199254740992%Z in Hlt53.
      change (2 ^ 74)%Z with 18889465931478580854784%Z in *.
      change (2 ^ 50)%Z with 1125899906842624%Z in *.
      nra.
    - symmetry. exact (powerRZ2_opp 74 ltac:(lia)). }
  assert (Hne : m2 <> 0%Z).
  { intros E. specialize (H0 E). unfold emin, Js.prec, Js.emax in H0. lia. }
  specialize (Hc Hne).
  assert (Hd : Zdigits2 m2 = 53%Z)
    by (revert Hc; unfold fexp, emin, Js.prec, Js.emax; lia).
  pose proof (JsFacts.Zdigits2_bounds m2 ltac:(lia)) as [Hlo _]. rewrite Hd in Hlo.
  assert (Hge52 : IZR (2 ^ 52) <= IZR m2) by (apply IZR_le; exact Hlo).
  assert (Hneg : (e2 < 0)%Z).
  { apply powerRZ2_lt_inv. fold u. change (powerRZ 2 0) with 1.
    change (2 ^ 52)%Z with 4503599627370496%Z in Hge52.
    change (2 ^ 50)%Z with 1125899906842624%Z in *.
    nra. }
  destruct m2 as [|p|p]; try lia.
  exists p. split; [|split; [|split; [exact Hneg|]]].
  - unfold Js.of_mantissa. destruct (Z.leb_spec e2 (Js.emax - Js.prec)); [reflexivity|].
    unfold Js.emax, Js.prec in *. lia.
  - unfold Js.is_binary64, valid_binary, bounded, canonical_mantissa.
    cbn [Zdigits2] in Hc. rewrite Hc, Z.eqb_refl. cbn.
    apply Z.leb_le. unfold Js.emax, Js.prec. lia.
  - assert (IZR (2 ^ 51) * / IZR (2 ^ 51) = 1) by (apply Rinv_r; apply eq_IZR_contrapositive; lia).
    change (2 ^ 52)%Z with 4503599627370496%Z in Hge52.
    change (2 ^ 51)%Z with 2251799813685248%Z in *.
    assert (Hrel : 2 * u <= IZR (Zpos p) * u * / 2251799813685248).
    { assert (0 < / 2251799813685248) by (apply Rinv_0_lt_compat; lra).
      assert (2 <= IZR (Zpos p) * / 2251799813685248) by nra.
      nra. }
    split; nra.
Qed.

(** The integer quotient the division starts from brackets the exact
    quotient. *)
Lemma div_core_cell m1 e1 m2 e2 :
  (0 < m1)%Z -> (0 < m2)%Z ->
  let '(q, e', l) := SFdiv_core_binary Js.prec Js.emax m1 e1 m2 e2 in
  IZR q * powerRZ 2 e'
  <= IZR m1 * powerRZ 2 e1 / (IZR m2 * powerRZ 2 e2)
  <= (IZR q + 1) * powerRZ 2 e'.
Proof.
  intros H1 H2. unfold SFdiv_core_binary.
  set (e' := Z.min (fexp Js.prec Js.emax (Zdigits2 m1 + e1 - (Zdigits2 m2 + e2))) (e1 - e2)).
  set (s := (e1 - e2 - e')%Z).
  assert (Hs : (0 <= s)%Z) by (unfold s, e'; lia).
  set (m' := match s with Z.pos _ => Z.shiftl m1 s | 0%Z => m1 | Z.neg _ => 0%Z end).
  assert (Hm' : m' = (m1 * 2 ^ s)%Z).
  { unfold m'. destruct s as [|p|p] eqn:Es.
    - simpl. lia.
    - apply Z.shiftl_mul_pow2. lia.
    - lia. }
  destruct (Z.div_eucl m' m2) as [q r] eqn:E.
  assert (Hq : q = (m' / m2)%Z) by (unfold Z.div; rewrite E; reflexivity).
  pose proof (Z.div_mod m' m2 ltac:(lia)) as Hdm.
  pose proof (Z.mod_pos_bound m' m2 H2) as Hb. rewrite <- Hq in Hdm.
  assert (Z1 : (q * m2 <= m1 * 2 ^ s)%Z) by lia.
  assert (Z2 : (m1 * 2 ^ s + 1 <= (q + 1) * m2)%Z) by lia.
  apply IZR_le in Z1, Z2.
  rewrite !mult_IZR, IZR_pow2 in Z1 by exact Hs.
  rewrite plus_IZR, !mult_IZR, plus_IZR, IZR_pow2 in Z2 by exact Hs.
  assert (HB : 0 < IZR m2) by (apply IZR_lt; lia).
  pose proof (powerRZ2_pos e2) as HV. pose proof (powerRZ2_pos e') as HU.
  assert (He1 : powerRZ 2 e1 = powerRZ 2 s * powerRZ 2 e2 * powerRZ 2 e').
  { rewrite <- !powerRZ2_add. f_equal. unfold s. lia. }
  rewrite He1.
  set (A := IZR m1) in *. set (B := IZR m2) in *. set (S := powerRZ 2 s) in *.
  set (V := powerRZ 2 e2) in *. set (U := powerRZ 2 e') in *.
  replace (A * (S * V * U) / (B * V)) with (A * S / B * U) by (field; lra).
  set (W := A * S / B).
  assert (HW : W * B = A * S) by (unfold W; field; lra).
  split; nra.
Qed.

(** The product of two canonical mantissas has not too few digits to be
    rounded. *)
Lemma mul_canonical_cond mx ex my ey :
  canonical_mantissa Js.prec Js.emax mx ex = true ->
  canonical_mantissa Js.prec Js.emax my ey = true ->
  (ex + ey <= fexp Js.prec Js.emax (Zdigits2 (Zpos (mx * my)) + (ex + ey)))%Z.
Proof.
  intros Hx Hy.
  apply JsFacts.canonical_digits in Hx as (Hx1 & Hx2 & Hx3).
  apply JsFacts.canonical_digits in Hy as (Hy1 & Hy2 & Hy3).
  pose proof (JsFacts.digits2_pos_bounds mx) as [Lx _].
  pose proof (JsFacts.digits2_pos_bounds my) as [Ly _].
  set (dx := Zpos (digits2_pos mx)) in *. set (dy := Zpos (digits2_pos my)) in *.
  assert (1 <= dx)%Z by (unfold dx; lia). assert (1 <= dy)%Z by (unfold dy; lia).
  assert (HD : (dx + dy - 1 <= Zdigits2 (Zpos (mx * my)))%Z).
  { replace (dx + dy - 1)%Z with ((dx - 1 + (dy - 1)) + 1)%Z by lia.
    apply JsFacts.Zdigits2_lower; [lia|]. rewrite Z.pow_add_r by lia. rewrite Pos2Z.inj_mul.
    assert (0 < 2 ^ (dx - 1))%Z by (apply Z.pow_pos_nonneg; lia).
    assert (0 < 2 ^ (dy - 1))%Z by (apply Z.pow_pos_nonneg; lia). nia. }
  revert HD. generalize (Zdigits2 (Zpos (mx * my))). intros D HD.
  unfold fexp, emin, Js.prec, Js.emax in *. lia.
Qed.

(** The quotient of two finite numbers, in range, is normal and close. *)
Lemma div_error sx mx ex sy my ey :
  / 1024 <= IZR (Zpos mx) * powerRZ 2 ex / (IZR (Zpos my) * powerRZ 2 ey) <= IZR (2 ^ 50) ->
  exists p e,
    Js.div (S754_finite sx mx ex) (S754_finite sy my ey) = S754_finite (xorb sx sy) p e /\
    Js.is_binary64 (S754_finite (xorb sx sy) p e) = true /\
    (e < 0)%Z /\
    IZR (Zpos p) * powerRZ 2 e * (1 - / IZR (2 ^ 51))
    <= IZR (Zpos mx) * powerRZ 2 ex / (IZR (Zpos my) * powerRZ 2 ey)
    <= IZR (Zpos p) * powerRZ 2 e * (1 + / IZR (2 ^ 51)).
Proof.
  intros Hr. unfold Js.div. cbn [SFdiv].
  pose proof (JsFacts.div_core_canonical (Zpos mx) ex (Zpos my) ey ltac:(lia) ltac:(lia)) as Hc.
  pose proof (div_core_cell (Zpos mx) ex (Zpos my) ey ltac:(lia) ltac:(lia)) as Hcell.
  destruct (SFdiv_core_binary Js.prec Js.emax (Zpos mx) ex (Zpos my) ey) as [[q e'] l].
  destruct Hc as [Hq Hc].
  destruct (binary_round_aux_error (xorb sx sy) q e' l _ Hq Hc Hcell)
    as (m2 & e2 & -> & Hm2 & H0 & Hcan & Ht).
  destruct (of_mantissa_normal (xorb sx sy) m2 e2 _ Hm2 H0 Hcan Ht Hr) as (p & Hp & Hv & He & Hrel).
  exists p, e2. rewrite Hp. auto.
Qed.

(** The product of two binary64 numbers, in range, is normal and close. *)
Lemma mul_error sx mx ex sy my ey :
  Js.is_binary64 (S754_finite sx mx ex) = true ->
  Js.is_binary64 (S754_finite sy my ey) = true ->
  / 1024 <= IZR (Zpos mx) * powerRZ 2 ex * (IZR (Zpos my) * powerRZ 2 ey) <= IZR (2 ^ 50) ->
  exists p e,
    Js.mul (S754_finite sx mx ex) (S754_finite sy my ey) = S754_finite (xorb sx sy) p e /\
    (e < 0)%Z /\
    Js.is_binary64 (S754_finite (xorb sx sy) p e) = true /\
    IZR (Zpos p) * powerRZ 2 e * (1 - / IZR (2 ^ 51))
    <= IZR (Zpos mx) * powerRZ 2 ex * (IZR (Zpos my) * powerRZ 2 ey)
    <= IZR (Zpos p) * powerRZ 2 e * (1 + / IZR (2 ^ 51)).
Proof.
  intros Vx Vy Hr. unfold Js.mul. cbn [SFmul].
  unfold Js.is_binary64, valid_binary, bounded in Vx, Vy.
  apply andb_prop in Vx as [Vx _]. apply andb_prop in Vy as [Vy _].
  pose proof (mul_canonical_cond mx ex my ey Vx Vy) as Hc.
  assert (Hcell : IZR (Zpos (mx * my)) * powerRZ 2 (ex + ey)
                  <= IZR (Zpos mx) * powerRZ 2 ex * (IZR (Zpos my) * powerRZ 2 ey)
                  <= (IZR (Zpos (mx * my)) + 1) * powerRZ 2 (ex + ey)).
  { rewrite Pos2Z.inj_mul, mult_IZR, powerRZ2_add.
    pose proof (powerRZ2_pos ex). pose proof (powerRZ2_pos ey).
    split; nra. }
  destruct (binary_round_aux_error (xorb sx sy) (Zpos (mx * my)) (ex + ey) loc_Exact _
              ltac:(lia) Hc Hcell) as (m2 & e2 & -> & Hm2 & H0 & Hcan & Ht).
  destruct (of_mantissa_normal (xorb sx sy) m2 e2 _ Hm2 H0 Hcan Ht Hr) as (p & Hp & Hv & He & Hrel).
  exists p, e2. rewrite Hp. auto.
Qed.

(** The real value of a number that is a positive integer. *)
Lemma represents_positive s m e a :
  (0 < a)%Z -> Js.represents (S754_finite s m e) a ->
  s = false /\ IZR (Zpos m) * powerRZ 2 e = IZR a.
Proof.
  intros Ha. unfold Js.represents, Js.signed.
  destruct (Z.ltb_spec e 0) as [He|He]; intros H.
  - assert (Hd : (0 < 2 ^ (- e))%Z) by (apply Z.pow_pos_nonneg; lia).
    destruct s; cbn [cond_Zopp] in H; [nia|]. split; [reflexivity|].
    rewrite H, mult_IZR, IZR_pow2 by lia. rewrite Rmult_assoc, powerRZ2_neg. ring.
  - assert (Hd : (0 < 2 ^ e)%Z) by (apply Z.pow_pos_nonneg; lia).
    destruct s; cbn [cond_Zopp] in H; [nia|]. split; [reflexivity|].
    rewrite H, mult_IZR, IZR_pow2 by lia. reflexivity.
Qed.

(** Only the zeros are the integer 0. *)
Lemma represents_zero x : Js.represents x 0 -> exists s, x = S754_zero s.
Proof.
  destruct x as [s|s| |s m e]; cbn [Js.represents]; try contradiction.
  - eauto.
  - unfold Js.signed. destruct (Z.ltb_spec e 0) as [He|He], s; cbn [cond_Zopp];
      intros Hr; try lia;
      assert (Hd : (0 < 2 ^ e)%Z) by (apply Z.pow_pos_nonneg; lia); nia.
Qed.

(** The fee on an integer amount at an integer percentage is an integer
    within one half of the exact amount times percentage over 100. *)
Lemma fee_within_half (x q : spec_float) (a p : Z) :
  Js.is_binary64 x = true -> Js.represents x a ->
  Js.represents q p ->
  (0 <= a)%Z -> (0 <= p <= 2 ^ 48)%Z -> (a * p <= 2 ^ 48)%Z ->
  exists h : Z,
    Js.represents (Js.Math_round (Js.mul x (Js.div q (Js.num 100)))) h /\
    (Z.abs (100 * h - a * p) <= 50)%Z.
Proof.
  intros Vx Rx Rq Ha Hp Hap.
  assert (E100 : Js.num 100 = S754_finite false 7036874417766400 (-46))
    by (vm_compute; reflexivity).
  assert (V100 : IZR 7036874417766400 * powerRZ 2 (-46) = 100).
  { apply (represents_positive false 7036874417766400 (-46) 100); [lia|].
    rewrite <- E100. apply JsFacts.num_exact. lia. }
  rewrite E100.
  destruct (Z.eq_dec p 0%Z) as [->|Hp0].
  { apply represents_zero in Rq as [s ->]. exists 0%Z. split; [|lia].
    destruct x as [sx|sx| |sx mx ex]; try contradiction; reflexivity. }
  assert (Hq : exists mq eq, q = S754_finite false mq eq /\ IZR (Zpos mq) * powerRZ 2 eq = IZR p).
  { destruct q as [s|s| |s mq eq]; cbn [Js.represents] in Rq; try contradiction.
    destruct (represents_positive s mq eq p ltac:(lia) Rq) as [-> Hv]. eauto. }
  destruct Hq as (mq & eq & -> & Vq).
  assert (Hp1 : 1 <= IZR p) by (apply IZR_le; lia).
  assert (Hp2 : IZR p <= IZR (2 ^ 48)) by (apply IZR_le; lia).
  change (2 ^ 48)%Z with 281474976710656%Z in Hp2.
  destruct (div_error false mq eq false 7036874417766400 (-46)) as (p1 & e1 & D1 & V1 & _ & B1).
  { rewrite Vq, V100. change (2 ^ 50)%Z with 1125899906842624%Z. lra. }
  rewrite D1. cbn [xorb] in *. rewrite Vq, V100 in B1.
  assert (Heps : IZR (2 ^ 51) * / IZR (2 ^ 51) = 1) by (apply Rinv_r; apply eq_IZR_contrapositive; lia).
  change (2 ^ 51)%Z with 2251799813685248%Z in *.
  set (eps := / 2251799813685248) in *.
  assert (Heps0 : 0 < eps) by (unfold eps; apply Rinv_0_lt_compat; lra).
  set (v1 := IZR (Zpos p1) * powerRZ 2 e1) in *.
  destruct (Z.eq_dec a 0%Z) as [->|Ha0].
  { apply represents_zero in Rx as [s ->]. exists 0%Z. split; [|lia]. reflexivity. }
  assert (Hx : exists mx ex, x = S754_finite false mx ex /\ IZR (Zpos mx) * powerRZ 2 ex = IZR a).
  { destruct x as [s|s| |s mx ex]; cbn [Js.represents] in Rx; try contradiction.
    destruct (represents_positive s mx ex a ltac:(lia) Rx) as [-> Hv]. eauto. }
  destruct Hx as (mx & ex & -> & Va).
  assert (Ha1 : 1 <= IZR a) by (apply IZR_le; lia).
  assert (HapR : IZR a * IZR p <= 281474976710656).
  { rewrite <- mult_IZR. apply IZR_le. exact Hap. }
  assert (Hv1 : 0 < v1) by nra.
  assert (W1 : IZR a * v1 * (1 - eps) <= IZR a * (IZR p / 100)) by nra.
  assert (W2 : IZR a * (IZR p / 100) <= IZR a * v1 * (1 + eps)) by nra.
  set (W := IZR a * v1) in *. set (E := IZR a * (IZR p / 100)) in *.
  assert (HE : E <= 281474976710656 / 100) by (unfold E; lra).
  assert (HE1 : / 100 <= E) by (unfold E; nra).
  destruct (mul_error false mx ex false p1 e1 Vx V1) as (p2 & e2 & M2 & He2 & V2 & B2).
  { rewrite Va. fold v1. fold W. change (2 ^ 50)%Z with 1125899906842624%Z. split; nra. }
  rewrite M2. cbn [xorb] in *. rewrite Va in B2. fold v1 in B2. fold W in B2.
  set (v2 := IZR (Zpos p2) * powerRZ 2 e2) in *.
  pose proof (JsFacts.Math_round_nearest _ V2) as N.
  cbn [Js.nearest_integer] in N. destruct N as (n & Rn & Hn).
  destruct (Z.ltb_spec e2 0) as [_|]; [|lia].
  exists n. split; [exact Rn|].
  unfold Js.signed in Hn. cbn [cond_Zopp] in Hn.
  assert (Hd : (0 < 2 ^ (- e2))%Z) by (apply Z.pow_pos_nonneg; lia).
  destruct Hn as [Hn1 Hn2]. apply IZR_lt in Hn1. apply IZR_le in Hn2.
  rewrite opp_IZR in Hn1.
  rewrite mult_IZR, minus_IZR, mult_IZR in Hn1, Hn2.
  rewrite IZR_pow2 in Hn1, Hn2 by lia.
  pose proof (powerRZ2_neg e2) as HDu. pose proof (powerRZ2_pos e2) as Hu.
  pose proof (powerRZ2_pos (- e2)) as HD.
  set (D := powerRZ 2 (- e2)) in *. set (u := powerRZ 2 e2) in *.
  change (2 ^ 51)%Z with 2251799813685248%Z in B2. fold eps in B2.
  assert (Hk : (IZR n * D - IZR (Zpos p2)) * u = IZR n - v2).
  { unfold v2. replace (IZR n) with (IZR n * (D * u)) at 2 by (rewrite HDu; ring). ring. }
  assert (K1 := Rmult_lt_compat_r u _ _ Hu Hn1).
  assert (K2 := Rmult_le_compat_r u _ _ (Rlt_le _ _ Hu) Hn2).
  assert (Hnear : -1 < 2 * (IZR n - v2) <= 1).
  { rewrite <- Hk. rewrite <- HDu. split; lra. }
  assert (Hfin : -51 < 100 * IZR n - IZR a * IZR p < 51).
  { assert (IZR a * IZR p = 100 * E) by (unfold E; field).
    assert (Hv2 : 0 < v2) by nra.
    split; nra. }
  destruct Hfin as [F1 F2].
  assert (-51 < 100 * n - a * p < 51)%Z.
  { split; apply lt_IZR; rewrite minus_IZR, !mult_IZR; lra. }
  lia.
Qed.

End JsRealFacts.

(** *** The tier card *)

Module ContributeTierFacts.
Import ContributeTier Samples.

Section AnyHelpers.
Variable isTierExpired : Tier.t -> bool.
Variable isPastEvent : Collective.t -> bool.

Abbreviation tierType := (tierType isTierExpired).
Abbreviation isDisabled := (isDisabled isTierExpired isPastEvent).
Abbreviation routing := (routing isTierExpired).
Abbreviation ContributeTier := (ContributeTier isTierExpired isPastEvent).

(** The card throws only on a ticket of a collective without parent. *)
Lemma routing_throws_iff collective tier :
  routing collective tier = Js.ThrowTypeError <->
  tierType tier = ContributionTypes.TICKET /\
  Collective.parentCollective collective = None.
Proof.
  unfold ContributeTier.routing.
  destruct (tierType tier) eqn:Ht; cbn;
    try (split; [discriminate | intros [? _]; discriminate]).
  destruct (Collective.parentCollective collective);
    split; try discriminate; try tauto. intros [_ ?]; discriminate.
Qed.

Lemma ContributeTier_props collective tier props :
  ContributeTier collective tier = Js.Normal props ->
  ContributeProps.type props = tierType tier /\
  ContributeProps.disableCTA props = isDisabled collective tier /\
  routing collective tier
  = Js.Normal (ContributeProps.route props, ContributeProps.routeParams props).
Proof.
  unfold ContributeTier.ContributeTier.
  destruct (routing collective tier) as [[route params]|]; [|discriminate].
  intros [= <-]. cbn. auto.
Qed.

Lemma ContributeTier_returns collective tier :
  tierType tier <> ContributionTypes.TICKET ->
  exists props, ContributeTier collective tier = Js.Normal props.
Proof.
  intros Hne. unfold ContributeTier.ContributeTier.
  destruct (routing collective tier) as [[route params]|] eqn:Hr.
  - eexists; reflexivity.
  - apply routing_throws_iff in Hr as [Ht _]. contradiction.
Qed.

(** C3.  Contribution is disabled exactly when the collective is
    inactive, or the collective is a past event, or the tier is expired,
    or the available quantity is the number zero.  An available quantity
    of [null] or [undefined] never disables: with an active collective
    that is no past event and a tier that is not expired the card is
    enabled.  The flag handed to [Contribute] is this one. *)
Theorem disabled_exactly_when collective tier :
  (isDisabled collective tier = true <->
     Js.truthy_bool (Collective.isActive collective) = false \/
     isPastEvent collective = true \/
     isTierExpired tier = true \/
     exists s, Stats.availableQuantity (Tier.stats tier) = Js.Number (S754_zero s)) /\
  ((Stats.availableQuantity (Tier.stats tier) = Js.Null \/
    Stats.availableQuantity (Tier.stats tier) = Js.Undefined) ->
   Collective.isActive collective = Some true ->
   isPastEvent collective = false ->
   isTierExpired tier = false ->
   isDisabled collective tier = false) /\
  (forall props,
     ContributeTier collective tier = Js.Normal props ->
     ContributeProps.disableCTA props = isDisabled collective tier).
Proof.
  assert (Hzero : Js.strict_eq_zero (Stats.availableQuantity (Tier.stats tier)) = true <->
                  exists s, Stats.availableQuantity (Tier.stats tier) = Js.Number (S754_zero s)).
  { destruct (Stats.availableQuantity (Tier.stats tier)) as [| |[s|s| |s m e]]; cbn;
      split; try discriminate; try (intros [? ?]; discriminate);
      try (intros [? [= ]]); eauto. }
  split; [|split].
  - unfold ContributeTier.isDisabled, canContributeToCollective, tierIsExpired, hasNoneLeft.
    rewrite <- Hzero.
    destruct (Js.truthy_bool (Collective.isActive collective)),
      (isPastEvent collective), (isTierExpired tier),
      (Js.strict_eq_zero (Stats.availableQuantity (Tier.stats tier))); cbn; intuition congruence.
  - intros Hq Ha Hp He.
    unfold ContributeTier.isDisabled, canContributeToCollective, tierIsExpired, hasNoneLeft.
    rewrite Ha, Hp, He. destruct Hq as [-> | ->]; reflexivity.
  - intros props Hprops. apply ContributeTier_props in Hprops. tauto.
Qed.

(** C6.  A tier that is not expired and has a goal set (a number other
    than zero, which is what the test [tier.goal] accepts) is classified
    FINANCIAL_GOAL whatever its type and interval: the goal test stands
    before the type tests.  The card returns, with that type. *)
Theorem goal_precedes_type collective tier :
  isTierExpired tier = false ->
  Js.truthy (Tier.goal tier) = true ->
  getContributionTypeFromTier tier (isTierExpired tier) = ContributionTypes.FINANCIAL_GOAL /\
  exists props,
    ContributeTier collective tier = Js.Normal props /\
    ContributeProps.type props = ContributionTypes.FINANCIAL_GOAL.
Proof.
  intros He Hg.
  assert (Ht : tierType tier = ContributionTypes.FINANCIAL_GOAL).
  { unfold ContributeTier.tierType, tierIsExpired, getContributionTypeFromTier.
    rewrite He, Hg. reflexivity. }
  split; [exact Ht|].
  destruct (ContributeTier_returns collective tier) as [props Hp].
  { rewrite Ht. discriminate. }
  exists props. split; [exact Hp|].
  apply ContributeTier_props in Hp as (-> & _). exact Ht.
Qed.

(** C7.  For a tier classified TICKET (of an event that has its parent
    collective) the card returns the event route with the parent's slug,
    the event's slug and the tier's id; for every other category it
    returns the collective route with the collective's slug, the tier's
    slug and the tier's id.  The slugs and the id in the parameters are
    the ones of the input. *)
Theorem route_params_carry_input collective tier :
  (tierType tier = ContributionTypes.TICKET ->
   forall parent,
     Collective.parentCollective collective = Some parent ->
     exists props,
       ContributeTier collective tier = Js.Normal props /\
       ContributeProps.route props = "orderEventTier"%string /\
       ContributeProps.routeParams props !! "collectiveSlug"%string
       = Some (PString (ParentCollective.slug parent)) /\
       ContributeProps.routeParams props !! "eventSlug"%string
       = Some (PString (Collective.slug collective)) /\
       ContributeProps.routeParams props !! "tierId"%string
       = Some (PNumber (Tier.id tier))) /\
  (tierType tier <> ContributionTypes.TICKET ->
   exists props,
     ContributeTier collective tier = Js.Normal props /\
     ContributeProps.route props = "orderCollectiveTierNew"%string /\
     ContributeProps.routeParams props !! "collectiveSlug"%string
     = Some (PString (Collective.slug collective)) /\
     ContributeProps.routeParams props !! "tierSlug"%string
     = Some (PString (Tier.slug tier)) /\
     ContributeProps.routeParams props !! "tierId"%string
     = Some (PNumber (Tier.id tier))).
Proof.
  split.
  - intros Ht parent Hp.
    unfold ContributeTier.ContributeTier, ContributeTier.routing.
    rewrite Ht, Hp. cbn [ContributionTypes.eqb].
    eexists. split; [reflexivity|]. cbn.
    repeat split; by simplify_map_eq.
  - intros Hne.
    unfold ContributeTier.ContributeTier, ContributeTier.routing.
    destruct (tierType tier) eqn:Ht; try contradiction; cbn [ContributionTypes.eqb];
      (eexists; split; [reflexivity|]; cbn; repeat split; by simplify_map_eq).
Qed.

End AnyHelpers.

(** C2, as the card has it.  A tier whose own end date is in the past is
    classified TIER_PASSED whatever its goal, type and interval, and
    whatever the collective; the card returns, with that type. *)
Theorem expired_tier_is_passed (now : Z) collective tier (ends : Z) :
  Tier.endsAt tier = Some ends ->
  ends < now ->
  getContributionTypeFromTier tier (TierUtils.isTierExpired now tier)
  = ContributionTypes.TIER_PASSED /\
  exists props,
    ContributeTier (TierUtils.isTierExpired now) (Events.isPastEvent now) collective tier
    = Js.Normal props /\
    ContributeProps.type props = ContributionTypes.TIER_PASSED.
Proof.
  intros He Hlt.
  assert (Hx : TierUtils.isTierExpired now tier = true).
  { unfold TierUtils.isTierExpired. rewrite He. apply Z.ltb_lt, Hlt. }
  assert (Ht : tierType (TierUtils.isTierExpired now) tier = ContributionTypes.TIER_PASSED).
  { unfold tierType, tierIsExpired, getContributionTypeFromTier. rewrite Hx. reflexivity. }
  split; [exact Ht|].
  destruct (ContributeTier_returns (TierUtils.isTierExpired now) (Events.isPastEvent now)
              collective tier) as [props Hp].
  { rewrite Ht. discriminate. }
  exists props. split; [exact Hp|].
  apply ContributeTier_props in Hp as (-> & _). exact Ht.
Qed.

(** A goal of 0 is no goal for the test [tier.goal]: the type decides. *)
Lemma zero_goal_is_not_set :
  getContributionTypeFromTier
    (withGoal (Js.Number (Js.num 0)) (withType TierTypes.PRODUCT plainTier)) false
  = ContributionTypes.PRODUCT.
Proof. reflexivity. Qed.

Lemma expired_tier_is_passed_witness :
  1000 < 2000 /\
  getContributionTypeFromTier
    (withEndsAt (Some 1000) (withGoal (Js.Number (Js.num 100000)) (withType TierTypes.PRODUCT plainTier)))
    (TierUtils.isTierExpired 2000
       (withEndsAt (Some 1000) (withGoal (Js.Number (Js.num 100000)) (withType TierTypes.PRODUCT plainTier))))
  = ContributionTypes.TIER_PASSED.
Proof.
  split; [lia|].
  refine (proj1 (expired_tier_is_passed 2000 activeCollective
    (withEndsAt (Some 1000) (withGoal (Js.Number (Js.num 100000)) (withType TierTypes.PRODUCT plainTier)))
    1000 _ _)); [reflexivity | lia].
Defined.

(** C2 as stated fails: the event ended at 1000, it is 2000, the ticket
    tier has no end date of its own; the card disables the button but
    classifies the tier TICKET, not TIER_PASSED. *)
Lemma ended_event_ticket_not_passed :
  Events.isPastEvent 2000 endedEvent = true /\
  exists props,
    ContributeTier (TierUtils.isTierExpired 2000) (Events.isPastEvent 2000)
      endedEvent (withType TierTypes.TICKET plainTier)
    = Js.Normal props /\
    ContributeProps.type props = ContributionTypes.TICKET /\
    ContributeProps.type props <> ContributionTypes.TIER_PASSED /\
    ContributeProps.disableCTA props = true.
Proof.
  split; [reflexivity|].
  eexists. split; [reflexivity|]. cbn.
  split; [reflexivity|]. split; [discriminate | reflexivity].
Qed.

Lemma disabled_exactly_when_witness :
  isDisabled (TierUtils.isTierExpired 2000) (Events.isPastEvent 2000)
    activeCollective plainTier = false.
Proof.
  refine (proj1 (proj2
    (disabled_exactly_when (TierUtils.isTierExpired 2000) (Events.isPastEvent 2000)
       activeCollective plainTier)) _ _ _ _);
    [left; reflexivity | reflexivity | reflexivity | reflexivity].
Defined.

Lemma goal_precedes_type_witness :
  getContributionTypeFromTier
    (withGoal (Js.Number (Js.num 100000)) (withType TierTypes.PRODUCT plainTier))
    (TierUtils.isTierExpired 2000
       (withGoal (Js.Number (Js.num 100000)) (withType TierTypes.PRODUCT plainTier)))
  = ContributionTypes.FINANCIAL_GOAL.
Proof.
  refine (proj1
    (goal_precedes_type (TierUtils.isTierExpired 2000) (Events.isPastEvent 2000)
       activeCollective
       (withGoal (Js.Number (Js.num 100000)) (withType TierTypes.PRODUCT plainTier)) _ _));
    reflexivity.
Defined.

Lemma route_params_carry_input_witness :
  (exists props,
     ContributeTier (TierUtils.isTierExpired 500) (Events.isPastEvent 500)
       endedEvent (withType TierTypes.TICKET plainTier) = Js.Normal props /\
     ContributeProps.route props = "orderEventTier"%string /\
     ContributeProps.routeParams props !! "collectiveSlug"%string = Some (PString "webpack") /\
     ContributeProps.routeParams props !! "eventSlug"%string = Some (PString "meetup-2019") /\
     ContributeProps.routeParams props !! "tierId"%string = Some (PNumber (Js.num 42))) /\
  (exists props,
     ContributeTier (TierUtils.isTierExpired 500) (Events.isPastEvent 500)
       activeCollective plainTier = Js.Normal props /\
     ContributeProps.route props = "orderCollectiveTierNew"%string /\
     ContributeProps.routeParams props !! "collectiveSlug"%string = Some (PString "webpack") /\
     ContributeProps.routeParams props !! "tierSlug"%string = Some (PString "backers") /\
     ContributeProps.routeParams props !! "tierId"%string = Some (PNumber (Js.num 42))).
Proof.
  split.
  - refine (proj1
      (route_params_carry_input (TierUtils.isTierExpired 500) (Events.isPastEvent 500)
         endedEvent (withType TierTypes.TICKET plainTier)) _
      {| ParentCollective.slug := "webpack" |} _); reflexivity.
  - refine (proj2
      (route_params_carry_input (TierUtils.isTierExpired 500) (Events.isPastEvent 500)
         activeCollective plainTier) _); discriminate.
Defined.

End ContributeTierFacts.

(** *** The add-funds modal *)

Module AddFundsModalFacts.
Import AddFundsModal Samples.

(** The product on a fee line is a binary64 number when the amount is. *)
Lemma feeProduct_binary64 (amount percent : Js.value) :
  Js.is_binary64 (Js.ToNumber amount) = true ->
  Js.is_binary64 (feeProduct amount percent) = true.
Proof.
  intros Va. unfold feeProduct.
  apply JsFacts.mul_binary64; [exact Va | apply JsFacts.div_binary64].
Qed.

(** Off a tie there is one nearest integer, and both tie rules name it. *)
Lemma nearest_off_tie (a p n : Z) :
  SplitSpec.nearest a p n -> SplitSpec.is_tie a p = false ->
  n = SplitSpec.round_half_up a p /\ n = SplitSpec.round_half_even a p.
Proof.
  unfold SplitSpec.nearest, SplitSpec.is_tie, SplitSpec.round_half_up,
    SplitSpec.round_half_even.
  intros Hn Ht. apply Z.eqb_neq in Ht.
  generalize dependent (a * p). intros k Hn Ht.
  pose proof (Z.div_mod k 100 ltac:(lia)) as Hk.
  pose proof (Z.mod_pos_bound k 100 ltac:(lia)) as Hr.
  split.
  - apply Z.div_unique with (r := k + 50 - 100 * n); lia.
  - destruct (Z.ltb_spec (k mod 100) 50); [|destruct (Z.ltb_spec 50 (k mod 100))]; lia.
Qed.

(** A fee line on an integer amount and an integer percentage: the fee is
    an integer within one half of the exact amount times percentage over
    100, and off a tie it is the value both tie rules give. *)
Lemma fee_near_exact (amount percent : Js.value) (a p : Z) :
  Js.is_binary64 (Js.ToNumber amount) = true ->
  0 <= a -> 0 <= p <= 2 ^ 48 -> a * p <= 2 ^ 48 ->
  Js.represents (Js.ToNumber amount) a ->
  Js.represents (Js.ToNumber percent) p ->
  exists n : Z,
    Js.represents (Js.Math_round (feeProduct amount percent)) n /\
    SplitSpec.nearest a p n /\
    (SplitSpec.is_tie a p = false ->
     n = SplitSpec.round_half_up a p /\ n = SplitSpec.round_half_even a p).
Proof.
  intros Va Ha Hp Hap Ra Rp. unfold feeProduct.
  destruct (JsRealFacts.fee_within_half _ _ a p Va Ra Rp Ha Hp Hap) as (n & Rn & Hn).
  exists n. split; [exact Rn|]. split; [exact Hn|].
  apply nearest_off_tie. exact Hn.
Qed.

(** C1, as the code computes it.  For every amount (a binary64 number,
    [null] or absent) and every pair of fee percentages that [isNaN]
    accepts as numbers, the host fee is [Math.round] of the binary64
    product [amount * (hostFeePercent / 100)], the platform fee is
    [Math.round] of [amount * (platformFeePercent / 100)], each the integer
    within one half of that product with a tie of the product going up,
    and the net amount is the amount minus both.

    Against the exact value: for a non-negative integer amount and a
    non-negative integer percentage, the percentage and the product of the
    two at most 2^48, the fee is an integer within one half of the exact
    amount times percentage over 100, and whenever that value is not
    half-way between two integers the fee is the nearest integer, the one
    round-half-up and round-half-even both give.  At an exact tie the fee
    is one of the two neighbours, the one the rounded machine product
    falls to, and follows neither rule: 45 at 70% (31.5) gives 31, 50 at
    29% (14.5) gives 14 and 29 at 50% (14.5) gives 15.

    With 1000, 10 and 5 the split is 100, 50 and 850. *)
Theorem fee_split_follows_machine_product
    (defaultHostFeePercent amount hostFeePercent platformFeePercent : Js.value) :
  Js.isNaN hostFeePercent = false ->
  Js.isNaN platformFeePercent = false ->
  Js.is_binary64 (Js.ToNumber amount) = true ->
  Split.hostFee (computeSplit defaultHostFeePercent amount hostFeePercent platformFeePercent)
  = Js.Math_round (feeProduct amount hostFeePercent) /\
  Js.nearest_integer (feeProduct amount hostFeePercent)
    (Split.hostFee (computeSplit defaultHostFeePercent amount hostFeePercent platformFeePercent)) /\
  Split.platformFee (computeSplit defaultHostFeePercent amount hostFeePercent platformFeePercent)
  = Js.Math_round (feeProduct amount platformFeePercent) /\
  Js.nearest_integer (feeProduct amount platformFeePercent)
    (Split.platformFee (computeSplit defaultHostFeePercent amount hostFeePercent platformFeePercent)) /\
  Split.netAmount (computeSplit defaultHostFeePercent amount hostFeePercent platformFeePercent)
  = Js.sub
      (Js.sub (Js.ToNumber amount)
         (Split.hostFee (computeSplit defaultHostFeePercent amount hostFeePercent platformFeePercent)))
      (Split.platformFee (computeSplit defaultHostFeePercent amount hostFeePercent platformFeePercent)) /\
  (forall a h : Z,
     0 <= a -> 0 <= h <= 2 ^ 48 -> a * h <= 2 ^ 48 ->
     Js.represents (Js.ToNumber amount) a ->
     Js.represents (Js.ToNumber hostFeePercent) h ->
     exists n : Z,
       Js.represents
         (Split.hostFee
            (computeSplit defaultHostFeePercent amount hostFeePercent platformFeePercent)) n /\
       SplitSpec.nearest a h n /\
       (SplitSpec.is_tie a h = false ->
        n = SplitSpec.round_half_up a h /\ n = SplitSpec.round_half_even a h)) /\
  (forall a p : Z,
     0 <= a -> 0 <= p <= 2 ^ 48 -> a * p <= 2 ^ 48 ->
     Js.represents (Js.ToNumber amount) a ->
     Js.represents (Js.ToNumber platformFeePercent) p ->
     exists n : Z,
       Js.represents
         (Split.platformFee
            (computeSplit defaultHostFeePercent amount hostFeePercent platformFeePercent)) n /\
       SplitSpec.nearest a p n /\
       (SplitSpec.is_tie a p = false ->
        n = SplitSpec.round_half_up a p /\ n = SplitSpec.round_half_even a p)) /\
  computeSplit defaultHostFeePercent (number 1000) (number 10) (number 5)
  = {| Split.hostFee := Js.num 100; Split.platformFee := Js.num 50; Split.netAmount := Js.num 850 |} /\
  Split.hostFee (computeSplit defaultHostFeePercent (number 45) (number 70) (number 0))
  = Js.num 31 /\
  Split.hostFee (computeSplit defaultHostFeePercent (number 50) (number 29) (number 0))
  = Js.num 14 /\
  Split.hostFee (computeSplit defaultHostFeePercent (number 29) (number 50) (number 0))
  = Js.num 15.
Proof.
  intros Hh Hp Va.
  pose proof (feeProduct_binary64 amount hostFeePercent Va) as Vh.
  pose proof (feeProduct_binary64 amount platformFeePercent Va) as Vp.
  assert (Eh : Split.hostFee (computeSplit defaultHostFeePercent amount hostFeePercent platformFeePercent)
               = Js.Math_round (feeProduct amount hostFeePercent)).
  { unfold computeSplit, hostFee, AddFundsModal.hostFeePercent, feeProduct.
    cbn [Split.hostFee FormValues.hostFeePercent FormValues.amount].
    rewrite Hh. reflexivity. }
  assert (Ep : Split.platformFee (computeSplit defaultHostFeePercent amount hostFeePercent platformFeePercent)
               = Js.Math_round (feeProduct amount platformFeePercent)).
  { unfold computeSplit, platformFee, AddFundsModal.platformFeePercent, feeProduct.
    cbn [Split.platformFee FormValues.platformFeePercent FormValues.amount].
    rewrite Hp. reflexivity. }
  split; [exact Eh|]. split; [rewrite Eh; apply JsFacts.Math_round_nearest, Vh|].
  split; [exact Ep|]. split; [rewrite Ep; apply JsFacts.Math_round_nearest, Vp|].
  split; [reflexivity|].
  split; [intros a h Ha Hb Hab Ra Rh; rewrite Eh; apply fee_near_exact; assumption|].
  split; [intros a p Ha Hb Hab Ra Rp; rewrite Ep; apply fee_near_exact; assumption|].
  repeat split; vm_compute; reflexivity.
Qed.

Lemma fee_split_follows_machine_product_witness :
  exists n : Z,
    Js.represents
      (Split.hostFee (computeSplit Js.Undefined (number 1005) (number 10) (number 5))) n /\
    SplitSpec.nearest 1005 10 n /\
    (SplitSpec.is_tie 1005 10 = false ->
     n = SplitSpec.round_half_up 1005 10 /\ n = SplitSpec.round_half_even 1005 10).
Proof.
  refine (proj1 (proj2 (proj2 (proj2 (proj2 (proj2
    (fee_split_follows_machine_product Js.Undefined (number 1005) (number 10) (number 5)
       _ _ _))))))
    1005 10 _ _ _ _ _); try (vm_compute; reflexivity); try lia.
Defined.

(** C1 as stated fails at an exact tie.  45 at 70% is 31.5: rounding to
    the nearest integer gives 32 with a tie going up and 32 with a tie
    going to even, the modal gives 31.  Nor does the modal keep to one of
    the two rules: 50 at 29% (14.5) gives 14 where a tie going up gives
    15, and 29 at 50% (14.5) gives 15 where a tie going to even gives
    14. *)
Lemma tie_follows_neither_rule :
  SplitSpec.is_tie 45 70 = true /\
  SplitSpec.round_half_up 45 70 = 32 /\
  SplitSpec.round_half_even 45 70 = 32 /\
  Split.hostFee (computeSplit Js.Undefined (number 45) (number 70) (number 0)) = Js.num 31 /\
  Js.num 31 <> Js.num 32 /\
  SplitSpec.round_half_up 50 29 = 15 /\
  Split.hostFee (computeSplit Js.Undefined (number 50) (number 29) (number 0)) = Js.num 14 /\
  Js.num 14 <> Js.num 15 /\
  SplitSpec.round_half_even 29 50 = 14 /\
  Split.hostFee (computeSplit Js.Undefined (number 29) (number 50) (number 0)) = Js.num 15.
Proof.
  repeat split; try (vm_compute; reflexivity); vm_compute; discriminate.
Qed.

(** The product is the machine product: 50 * (29 / 100) is the binary64
    number just below 14.5, and the host fee is 14. *)
Lemma tie_follows_machine_product :
  Js.ltb (feeProduct (number 50) (number 29)) (Js.div (Js.num 29) (Js.num 2)) = true /\
  Split.hostFee (computeSplit Js.Undefined (number 50) (number 29) (number 0)) = Js.num 14.
Proof. split; vm_compute; reflexivity. Qed.

(** C4.  A host percentage that is not a number for [isNaN] gives way to
    the collective's default rate, a platform percentage that is not a
    number to 0, before the fees are computed; each independently of the
    other.  With 1000, NaN, NaN and the default rate 15 the split is that
    of 1000, 15 and 0: 150, 0 and 850. *)
Theorem non_numeric_percent_replaced
    (defaultHostFeePercent amount hostFeePercent platformFeePercent : Js.value) :
  (Js.isNaN hostFeePercent = true ->
   AddFundsModal.hostFeePercent defaultHostFeePercent
     {| FormValues.amount := amount;
        FormValues.hostFeePercent := hostFeePercent;
        FormValues.platformFeePercent := platformFeePercent;
        FormValues.description := EmptyString;
        FormValues.fromAccount := None;
        FormValues.account := None |}
   = defaultHostFeePercent /\
   computeSplit defaultHostFeePercent amount hostFeePercent platformFeePercent
   = computeSplit defaultHostFeePercent amount defaultHostFeePercent platformFeePercent) /\
  (Js.isNaN platformFeePercent = true ->
   AddFundsModal.platformFeePercent
     {| FormValues.amount := amount;
        FormValues.hostFeePercent := hostFeePercent;
        FormValues.platformFeePercent := platformFeePercent;
        FormValues.description := EmptyString;
        FormValues.fromAccount := None;
        FormValues.account := None |}
   = number 0 /\
   computeSplit defaultHostFeePercent amount hostFeePercent platformFeePercent
   = computeSplit defaultHostFeePercent amount hostFeePercent (number 0)) /\
  computeSplit (number 15) (number 1000) (Js.Number Js.NaN) (Js.Number Js.NaN)
  = computeSplit (number 15) (number 1000) (number 15) (number 0) /\
  computeSplit (number 15) (number 1000) (Js.Number Js.NaN) (Js.Number Js.NaN)
  = {| Split.hostFee := Js.num 150; Split.platformFee := Js.num 0; Split.netAmount := Js.num 850 |}.
Proof.
  split; [|split; [|split]].
  - intros Hh.
    unfold computeSplit, netAmount, hostFee, AddFundsModal.hostFeePercent.
    cbn [FormValues.hostFeePercent FormValues.amount].
    rewrite Hh. split; [reflexivity|].
    destruct (Js.isNaN defaultHostFeePercent); reflexivity.
  - intros Hp.
    unfold computeSplit, netAmount, platformFee, AddFundsModal.platformFeePercent.
    cbn [FormValues.platformFeePercent FormValues.amount].
    rewrite Hp. split; [reflexivity|].
    replace (Js.isNaN (number 0)) with false by (vm_compute; reflexivity).
    reflexivity.
  - vm_compute. reflexivity.
  - vm_compute. reflexivity.
Qed.

Lemma non_numeric_percent_replaced_witness :
  computeSplit (number 15) (number 1000) Js.Undefined (number 5)
  = computeSplit (number 15) (number 1000) (number 15) (number 5) /\
  computeSplit (number 15) (number 1000) (number 10) (Js.Number Js.NaN)
  = computeSplit (number 15) (number 1000) (number 10) (number 0).
Proof.
  split.
  - refine (proj2 (proj1
      (non_numeric_percent_replaced (number 15) (number 1000) Js.Undefined (number 5)) _)).
    reflexivity.
  - refine (proj2 (proj1 (proj2
      (non_numeric_percent_replaced (number 15) (number 1000) (number 10) (Js.Number Js.NaN))) _)).
    reflexivity.
Defined.

(** [null] is a number for [isNaN] (it converts to 0): a host percentage
    of [null] is kept, and the host fee is then 0 whatever the default. *)
Lemma null_percent_is_kept :
  Split.hostFee (computeSplit (number 15) (number 1000) Js.Null (number 0)) = Js.num 0.
Proof. vm_compute. reflexivity. Qed.

(** C8, as the calculator has it.  For every amount and percentages, also
    when the percentages sum to more than 100, the split is computed (the
    three amounts are numbers, nothing is checked and nothing can fail),
    the fees are [Math.round] of the amount times the percentage in force
    over 100 and the net amount is the amount minus both fees.  Nothing
    forbids a negative net amount: with 1000, 60 and 50 it is -100. *)
Theorem net_amount_is_unchecked
    (defaultHostFeePercent amount hostFeePercent platformFeePercent : Js.value) :
  Split.hostFee (computeSplit defaultHostFeePercent amount hostFeePercent platformFeePercent)
  = Js.Math_round
      (feeProduct amount
         (if Js.isNaN hostFeePercent then defaultHostFeePercent else hostFeePercent)) /\
  Split.platformFee (computeSplit defaultHostFeePercent amount hostFeePercent platformFeePercent)
  = Js.Math_round
      (feeProduct amount
         (if Js.isNaN platformFeePercent then number 0 else platformFeePercent)) /\
  Split.netAmount (computeSplit defaultHostFeePercent amount hostFeePercent platformFeePercent)
  = Js.sub
      (Js.sub (Js.ToNumber amount)
         (Split.hostFee (computeSplit defaultHostFeePercent amount hostFeePercent platformFeePercent)))
      (Split.platformFee (computeSplit defaultHostFeePercent amount hostFeePercent platformFeePercent)) /\
  Js.ltb (Js.num 100) (Js.add (Js.num 60) (Js.num 50)) = true /\
  Split.netAmount (computeSplit defaultHostFeePercent (number 1000) (number 60) (number 50))
  = Js.num (-100) /\
  Js.ltb (Js.num (-100)) (Js.num 0) = true.
Proof.
  split; [|split; [|split; [|split; [|split]]]].
  - reflexivity.
  - reflexivity.
  - reflexivity.
  - vm_compute. reflexivity.
  - vm_compute. reflexivity.
  - vm_compute. reflexivity.
Qed.

(** C8 as stated fails: 101% and 0% sum to more than 100%, and the net
    amount of 1 is 0, which is not negative. *)
Lemma fees_above_100_net_not_negative :
  Js.ltb (Js.num 100) (Js.add (Js.num 101) (Js.num 0)) = true /\
  computeSplit Js.Undefined (number 1) (number 101) (number 0)
  = {| Split.hostFee := Js.num 1; Split.platformFee := Js.num 0; Split.netAmount := Js.num 0 |} /\
  Js.ltb (Split.netAmount (computeSplit Js.Undefined (number 1) (number 101) (number 0)))
    (Js.num 0) = false.
Proof. repeat split; vm_compute; reflexivity. Qed.

Lemma validate_unfold (values : FormValues.t) :
  validate values
  = (let e1 := if FormUtils.isMissing (FNumber (FormValues.amount values))
               then <["amount"%string := FORM_FIELD_REQUIRED]> ∅ else ∅ in
     let e2 := if FormUtils.isMissing (FAccount (FormValues.fromAccount values))
               then <["fromAccount"%string := FORM_FIELD_REQUIRED]> e1 else e1 in
     if FormUtils.isMissing (FString (FormValues.description values))
     then <["description"%string := FORM_FIELD_REQUIRED]> e2 else e2).
Proof. reflexivity. Qed.

(** The marker under any key: the key is one of the three required fields
    and the field is missing. *)
Lemma validate_lookup (values : FormValues.t) (field : string) :
  validate values !! field
  = if (String.eqb field "amount" && FormUtils.isMissing (FNumber (FormValues.amount values)))
       || (String.eqb field "fromAccount"
           && FormUtils.isMissing (FAccount (FormValues.fromAccount values)))
       || (String.eqb field "description"
           && FormUtils.isMissing (FString (FormValues.description values)))
    then Some FORM_FIELD_REQUIRED else None.
Proof.
  rewrite validate_unfold. cbn zeta.
  destruct (String.eqb_spec field "amount") as [->|H1];
  [|destruct (String.eqb_spec field "fromAccount") as [->|H2];
  [|destruct (String.eqb_spec field "description") as [->|H3]]];
  destruct (FormUtils.isMissing (FNumber (FormValues.amount values))),
    (FormUtils.isMissing (FAccount (FormValues.fromAccount values))),
    (FormUtils.isMissing (FString (FormValues.description values)));
  cbn [andb orb];
    repeat (rewrite lookup_insert; case_decide; try congruence);
    try rewrite lookup_empty; try reflexivity.
Qed.

(** C5.  Validation is a total function of the form state.  It marks
    [amount] exactly when the amount is [null] or absent, [fromAccount]
    exactly when no source account is set, [description] exactly when the
    description is empty, and no other key.  When it returns any marker the
    submit button is disabled, dirty or not.  The state with amount 500, no
    source account and description "x" has one marker, under
    [fromAccount]. *)
Theorem validate_marks_missing_fields (values : FormValues.t) :
  (validate values !! "amount"%string = Some FORM_FIELD_REQUIRED <->
     FormValues.amount values = Js.Null \/ FormValues.amount values = Js.Undefined) /\
  (validate values !! "fromAccount"%string = Some FORM_FIELD_REQUIRED <->
     FormValues.fromAccount values = None) /\
  (validate values !! "description"%string = Some FORM_FIELD_REQUIRED <->
     FormValues.description values = EmptyString) /\
  (forall field : string,
     field <> "amount"%string -> field <> "fromAccount"%string ->
     field <> "description"%string ->
     validate values !! field = None) /\
  (forall defaultHostFeePercent dirty isSubmitting,
     validate values <> ∅ ->
     FormView.submitDisabled
       (children defaultHostFeePercent (Formik.state validate values dirty isSubmitting))
     = true) /\
  validate noSourceAccount = {[ "fromAccount"%string := FORM_FIELD_REQUIRED ]}.
Proof.
  split; [|split; [|split; [|split; [|split]]]].
  - rewrite validate_lookup. cbn [String.eqb Ascii.eqb Bool.eqb andb orb].
    destruct (FormValues.amount values); cbn; split;
      (discriminate || tauto || (intros [?|?]; discriminate) || auto).
  - rewrite validate_lookup. cbn [String.eqb Ascii.eqb Bool.eqb andb orb].
    destruct (FormValues.fromAccount values); cbn; split; (discriminate || auto).
  - rewrite validate_lookup. cbn [String.eqb Ascii.eqb Bool.eqb andb orb].
    cbn [FormUtils.isMissing].
    destruct (String.eqb_spec (FormValues.description values) EmptyString);
      split; (discriminate || tauto).
  - intros field H1 H2 H3. rewrite validate_lookup.
    destruct (String.eqb_spec field "amount"); [contradiction|].
    destruct (String.eqb_spec field "fromAccount"); [contradiction|].
    destruct (String.eqb_spec field "description"); [contradiction|].
    reflexivity.
  - intros defaultHostFeePercent dirty isSubmitting Hne.
    unfold children, Formik.state, Formik.noErrors.
    cbn [FormView.submitDisabled Formik.dirty Formik.isValid].
    destruct (size (validate values)) eqn:Hsz;
      [apply map_size_empty_iff in Hsz; contradiction|].
    cbn. apply orb_true_r.
  - reflexivity.
Qed.

Lemma validate_marks_missing_fields_witness :
  FormView.submitDisabled
    (children Js.Undefined (Formik.state validate noSourceAccount true false))
  = true.
Proof.
  refine (proj1 (proj2 (proj2 (proj2 (proj2
    (validate_marks_missing_fields noSourceAccount))))) Js.Undefined true false _).
  intros H.
  apply (f_equal (fun m : gmap string error_marker => m !! "fromAccount"%string)) in H.
  rewrite validate_lookup, lookup_empty in H. discriminate H.
Defined.

(** C9.  The reference built from an account is [{id: x}] when the
    account's id [x] is a string and [{legacyId: x}] otherwise; it never
    has both keys.  The two references of the submitted variables are
    built this way from the source account and the target account of the
    form state. *)
Theorem account_reference_has_one_shape (input : Account.t) :
  exists reference,
    buildAccountReference (Some input) = Js.Normal reference /\
    ((exists s, Account.id input = IdString s) ->
     reference = {[ "id"%string := Account.id input ]}) /\
    ((forall s, Account.id input <> IdString s) ->
     reference = {[ "legacyId"%string := Account.id input ]}) /\
    ~ (is_Some (reference !! "id"%string) /\ is_Some (reference !! "legacyId"%string)) /\
    (forall values target,
       FormValues.fromAccount values = Some input ->
       FormValues.account values = Some target ->
       exists variables,
         onSubmit values = Js.Normal variables /\
         AddFundsVariables.fromAccount variables = reference /\
         buildAccountReference (Some target) = Js.Normal (AddFundsVariables.account variables)).
Proof.
  assert (Hsub : forall reference,
    buildAccountReference (Some input) = Js.Normal reference ->
    forall values target,
      FormValues.fromAccount values = Some input ->
      FormValues.account values = Some target ->
      exists variables,
        onSubmit values = Js.Normal variables /\
        AddFundsVariables.fromAccount variables = reference /\
        buildAccountReference (Some target) = Js.Normal (AddFundsVariables.account variables)).
  { intros reference Href values target Hf Ha. unfold onSubmit.
    rewrite Hf, Href, Ha.
    destruct (buildAccountReference (Some target)) as [r|] eqn:Ht.
    - eexists. split; [reflexivity|]. split; reflexivity.
    - cbn in Ht. destruct (Account.id target); discriminate. }
  cbn [buildAccountReference] in *.
  destruct (Account.id input) as [s|x|] eqn:Hid; eexists; (split; [reflexivity|]).
  - split; [reflexivity|]. split; [intros H; destruct (H s eq_refl)|].
    split; [|by apply Hsub].
    intros [_ [v Hv]]. rewrite lookup_singleton_ne in Hv by discriminate. discriminate.
  - split; [intros [s Hs]; discriminate|]. split; [reflexivity|].
    split; [|by apply Hsub].
    intros [[v Hv] _]. rewrite lookup_singleton_ne in Hv by discriminate. discriminate.
  - split; [intros [s Hs]; discriminate|]. split; [reflexivity|].
    split; [|by apply Hsub].
    intros [[v Hv] _]. rewrite lookup_singleton_ne in Hv by discriminate. discriminate.
Qed.

Lemma account_reference_has_one_shape_witness :
  buildAccountReference (Some accountV2)
  = Js.Normal {[ "id"%string := IdString "rvelja97-pkzqbgq7-qb5w3e4o-mxnky0j5" ]} /\
  buildAccountReference (Some accountV1)
  = Js.Normal {[ "legacyId"%string := IdNumber (Js.num 9805) ]}.
Proof.
  split.
  - destruct (account_reference_has_one_shape accountV2) as (r & Hr & Hs & _).
    rewrite Hr. f_equal. apply Hs. eexists. reflexivity.
  - destruct (account_reference_has_one_shape accountV1) as (r & Hr & _ & Hn & _).
    rewrite Hr. f_equal. apply Hn. intros s. discriminate.
Defined.

(** C10.  Without a logged-in user the modal returns [null]: there is no
    form element, hence no initial values, no render function computing
    fees and no submit handler.  The guard is the only way to [null]: with
    a user the form element is returned. *)
Theorem no_user_no_modal (LoggedInUser : option User.t) (host collective : Account.t) :
  AddFundsModal None host collective = None /\
  (AddFundsModal LoggedInUser host collective = None <-> LoggedInUser = None).
Proof.
  split; [reflexivity|].
  destruct LoggedInUser; cbn; split; (discriminate || reflexivity).
Qed.

End AddFundsModalFacts.

(** *** The tier card: classification table, failure, body and links *)

Module ContributeTierCardFacts.
Import ContributeTier ContributeTierCard Samples CardSamples.

(** The decision table of [getContributionTypeFromTier]. *)
Lemma contribution_type_table (tier : Tier.t) (isPassed : bool) :
  (getContributionTypeFromTier tier isPassed = ContributionTypes.TIER_PASSED <->
     isPassed = true) /\
  (getContributionTypeFromTier tier isPassed = ContributionTypes.FINANCIAL_GOAL <->
     isPassed = false /\ Js.truthy (Tier.goal tier) = true) /\
  (getContributionTypeFromTier tier isPassed = ContributionTypes.PRODUCT <->
     isPassed = false /\ Js.truthy (Tier.goal tier) = false /\
     Tier.type tier = Some "PRODUCT"%string) /\
  (getContributionTypeFromTier tier isPassed = ContributionTypes.TICKET <->
     isPassed = false /\ Js.truthy (Tier.goal tier) = false /\
     Tier.type tier = Some "TICKET"%string) /\
  (getContributionTypeFromTier tier isPassed = ContributionTypes.MEMBERSHIP <->
     isPassed = false /\ Js.truthy (Tier.goal tier) = false /\
     Tier.type tier = Some "MEMBERSHIP"%string) /\
  (getContributionTypeFromTier tier isPassed = ContributionTypes.FINANCIAL_RECURRING <->
     isPassed = false /\ Js.truthy (Tier.goal tier) = false /\
     Tier.type tier <> Some "PRODUCT"%string /\ Tier.type tier <> Some "TICKET"%string /\
     Tier.type tier <> Some "MEMBERSHIP"%string /\
     Js.truthy_string (Tier.interval tier) = true) /\
  (getContributionTypeFromTier tier isPassed = ContributionTypes.FINANCIAL_ONE_TIME <->
     isPassed = false /\ Js.truthy (Tier.goal tier) = false /\
     Tier.type tier <> Some "PRODUCT"%string /\ Tier.type tier <> Some "TICKET"%string /\
     Tier.type tier <> Some "MEMBERSHIP"%string /\
     Js.truthy_string (Tier.interval tier) = false).
Proof.
  unfold getContributionTypeFromTier, TierTypes.PRODUCT, TierTypes.TICKET, TierTypes.MEMBERSHIP.
  destruct isPassed, (Js.truthy (Tier.goal tier)),
    (Js.truthy_string (Tier.interval tier));
    repeat case_bool_decide;
    repeat split; intros; destruct_and?; congruence.
Qed.

(** X1.  The category is decided by the first test that holds: TIER_PASSED
    exactly when the tier is passed; FINANCIAL_GOAL exactly when it is not
    and the goal is set; PRODUCT, TICKET and MEMBERSHIP exactly when neither
    holds and the type is that one; otherwise FINANCIAL_RECURRING when the
    interval is set and FINANCIAL_ONE_TIME when it is not.  A type other
    than the three, or none, is classified by the interval alone. *)
Theorem contribution_type_exact (tier : Tier.t) (isPassed : bool) :
  (getContributionTypeFromTier tier isPassed = ContributionTypes.TIER_PASSED <->
     isPassed = true) /\
  (getContributionTypeFromTier tier isPassed = ContributionTypes.FINANCIAL_GOAL <->
     isPassed = false /\ Js.truthy (Tier.goal tier) = true) /\
  (getContributionTypeFromTier tier isPassed = ContributionTypes.PRODUCT <->
     isPassed = false /\ Js.truthy (Tier.goal tier) = false /\
     Tier.type tier = Some "PRODUCT"%string) /\
  (getContributionTypeFromTier tier isPassed = ContributionTypes.TICKET <->
     isPassed = false /\ Js.truthy (Tier.goal tier) = false /\
     Tier.type tier = Some "TICKET"%string) /\
  (getContributionTypeFromTier tier isPassed = ContributionTypes.MEMBERSHIP <->
     isPassed = false /\ Js.truthy (Tier.goal tier) = false /\
     Tier.type tier = Some "MEMBERSHIP"%string) /\
  (getContributionTypeFromTier tier isPassed = ContributionTypes.FINANCIAL_RECURRING <->
     isPassed = false /\ Js.truthy (Tier.goal tier) = false /\
     Tier.type tier <> Some "PRODUCT"%string /\ Tier.type tier <> Some "TICKET"%string /\
     Tier.type tier <> Some "MEMBERSHIP"%string /\
     Js.truthy_string (Tier.interval tier) = true) /\
  (getContributionTypeFromTier tier isPassed = ContributionTypes.FINANCIAL_ONE_TIME <->
     isPassed = false /\ Js.truthy (Tier.goal tier) = false /\
     Tier.type tier <> Some "PRODUCT"%string /\ Tier.type tier <> Some "TICKET"%string /\
     Tier.type tier <> Some "MEMBERSHIP"%string /\
     Js.truthy_string (Tier.interval tier) = false).
Proof. apply contribution_type_table. Qed.

Section AnyHelpers.
Variable formatCurrency : Js.value -> string -> string.
Variable formatMessage : FallbackValues.t -> string.
Variable isTierExpired : Tier.t -> bool.
Variable isPastEvent : Collective.t -> bool.

(** X2.  The card fails (reading the slug of a missing parent collective)
    exactly when the tier is not expired, has no goal, is of type TICKET
    and the collective has no parent.  An expired ticket, or a ticket with
    a goal, of such a collective is rendered. *)
Theorem card_throws_exactly_when collective tier :
  ContributeTier isTierExpired isPastEvent collective tier = Js.ThrowTypeError <->
  isTierExpired tier = false /\
  Js.truthy (Tier.goal tier) = false /\
  Tier.type tier = Some "TICKET"%string /\
  Collective.parentCollective collective = None.
Proof.
  pose proof (contribution_type_table tier (isTierExpired tier)) as (_ & _ & _ & HT & _).
  unfold ContributeTier.ContributeTier, routing, tierType, tierIsExpired.
  destruct (getContributionTypeFromTier tier (isTierExpired tier)) eqn:Ht;
    cbn [ContributionTypes.eqb];
    try (split; [discriminate | intros H; apply proj2 in HT;
                  assert (ContributionTypes.TICKET = ContributionTypes.TICKET) by reflexivity;
                  destruct H as (? & ? & ? & ?); specialize (HT ltac:(auto)); discriminate]).
  destruct (Collective.parentCollective collective) as [parent|].
  - split; [discriminate | intros (_ & _ & _ & ?); discriminate].
  - split; [intros _ | reflexivity].
    destruct HT as [HT _]. specialize (HT eq_refl). tauto.
Qed.

(** X3.  When the card is rendered, the route is the event route exactly
    for a TICKET.  The parameters then have the verb "events" and no
    [tierSlug]; otherwise the verb "contribute" and no [eventSlug].  No
    other key than these five is ever present. *)
Theorem route_and_keys collective tier props :
  ContributeTier isTierExpired isPastEvent collective tier = Js.Normal props ->
  (ContributeProps.route props = "orderEventTier"%string <->
     ContributeProps.type props = ContributionTypes.TICKET) /\
  (ContributeProps.type props = ContributionTypes.TICKET ->
     ContributeProps.routeParams props !! "verb"%string = Some (PString "events") /\
     ContributeProps.routeParams props !! "tierSlug"%string = None) /\
  (ContributeProps.type props <> ContributionTypes.TICKET ->
     ContributeProps.route props = "orderCollectiveTierNew"%string /\
     ContributeProps.routeParams props !! "verb"%string = Some (PString "contribute") /\
     ContributeProps.routeParams props !! "eventSlug"%string = None) /\
  (forall key : string,
     key <> "collectiveSlug"%string -> key <> "verb"%string ->
     key <> "eventSlug"%string -> key <> "tierSlug"%string -> key <> "tierId"%string ->
     ContributeProps.routeParams props !! key = None).
Proof.
  unfold ContributeTier.ContributeTier, routing.
  destruct (tierType isTierExpired tier) eqn:Ht; cbn [ContributionTypes.eqb];
    try (intros [= <-];
         cbn [ContributeProps.route ContributeProps.type ContributeProps.routeParams];
         repeat split; intros; try discriminate; try congruence; by simplify_map_eq).
  destruct (Collective.parentCollective collective) as [parent|]; [|discriminate].
  intros [= <-].
  cbn [ContributeProps.route ContributeProps.type ContributeProps.routeParams].
  repeat split; intros; try discriminate; try congruence; by simplify_map_eq.
Qed.

(** X4.  For every category but TICKET the parameters of the contribute
    route are the parameters of the "Read more" link to the tier page.  For
    a TICKET they are not: the link names the event as its collective,
    where the route names the parent. *)
Theorem read_more_link_params collective tier props :
  ContributeTier isTierExpired isPastEvent collective tier = Js.Normal props ->
  (ContributeProps.type props <> ContributionTypes.TICKET ->
     ContributeProps.routeParams props = readMoreParams collective tier) /\
  (ContributeProps.type props = ContributionTypes.TICKET ->
     readMoreParams collective tier !! "collectiveSlug"%string
     = ContributeProps.routeParams props !! "eventSlug"%string /\
     exists parent,
       Collective.parentCollective collective = Some parent /\
       ContributeProps.routeParams props !! "collectiveSlug"%string
       = Some (PString (ParentCollective.slug parent))).
Proof.
  unfold ContributeTier.ContributeTier, routing, readMoreParams.
  destruct (tierType isTierExpired tier) eqn:Ht; cbn [ContributionTypes.eqb];
    try (intros [= <-];
         cbn [ContributeProps.route ContributeProps.type ContributeProps.routeParams];
         split; [reflexivity | discriminate]).
  destruct (Collective.parentCollective collective) as [parent|]; [|discriminate].
  intros [= <-].
  cbn [ContributeProps.route ContributeProps.type ContributeProps.routeParams].
  split; [congruence|]. intros _.
  split; [by simplify_map_eq|]. exists parent. split; [reflexivity | by simplify_map_eq].
Qed.

(** [v > 0] holds of positive numbers only. *)
Lemma gt_zero_number (v : Js.value) :
  JsOps.gt_zero v = true ->
  exists x, v = Js.Number x /\ Js.ltb (Js.num 0) x = true /\ Js.truthy v = true.
Proof.
  unfold JsOps.gt_zero. destruct v as [| |x]; cbn; try discriminate.
  intros H. exists x. split; [reflexivity|]. split; [exact H|].
  destruct x as [s|s| |s m e]; cbn in *; try reflexivity; discriminate.
Qed.

(** X5.  The amount is shown exactly when the collective is active and no
    past event, the tier is not expired, the available quantity is not the
    number zero and the minimum amount is greater than zero; the amount is
    then a positive number, never [null], absent, zero or NaN.  The "Starts
    at" label comes only with a shown amount of a FLEXIBLE tier, which is
    then the tier's [minimumAmount]. *)
Theorem amount_shown_exactly_when collective tier :
  (showAmount isTierExpired isPastEvent collective tier = true <->
     Js.truthy_bool (Collective.isActive collective) = true /\
     isPastEvent collective = false /\
     isTierExpired tier = false /\
     Js.strict_eq_zero (Stats.availableQuantity (Tier.stats tier)) = false /\
     JsOps.gt_zero (minAmount tier) = true) /\
  (showAmount isTierExpired isPastEvent collective tier = true ->
     exists x, minAmount tier = Js.Number x /\ Js.ltb (Js.num 0) x = true) /\
  (showStartsAt isTierExpired isPastEvent collective tier = true ->
     showAmount isTierExpired isPastEvent collective tier = true /\
     Tier.amountType tier = Some "FLEXIBLE"%string /\
     minAmount tier = Tier.minimumAmount tier).
Proof.
  split; [|split].
  - unfold showAmount, isDisabled, canContributeToCollective, tierIsExpired, hasNoneLeft.
    destruct (Js.truthy_bool (Collective.isActive collective)),
      (isPastEvent collective), (isTierExpired tier),
      (Js.strict_eq_zero (Stats.availableQuantity (Tier.stats tier))),
      (JsOps.gt_zero (minAmount tier)); cbn; intuition congruence.
  - unfold showAmount. intros H. apply andb_prop in H as [_ H].
    apply gt_zero_number in H as (x & Hx & Hlt & _). eauto.
  - unfold showStartsAt. intros H. apply andb_prop in H as [Hs Hf].
    split; [exact Hs|]. unfold minAmount. rewrite Hf.
    unfold isFlexibleAmount in Hf. apply bool_decide_eq_true in Hf. auto.
Qed.

(** X6.  The amount raised agrees with the category: a FINANCIAL_RECURRING
    tier reports its recurring donations, a FINANCIAL_ONE_TIME tier its
    total donated. *)
Theorem raised_agrees_with_category tier :
  (tierType isTierExpired tier = ContributionTypes.FINANCIAL_RECURRING ->
     raised tier = Stats.totalRecurringDonations (Tier.stats tier)) /\
  (tierType isTierExpired tier = ContributionTypes.FINANCIAL_ONE_TIME ->
     raised tier = Stats.totalDonated (Tier.stats tier)).
Proof.
  pose proof (contribution_type_table tier (isTierExpired tier))
    as (_ & _ & _ & _ & _ & HR & HO).
  unfold tierType, tierIsExpired, raised. split; intros Ht.
  - apply HR in Ht as (_ & _ & _ & _ & _ & ->). reflexivity.
  - apply HO in Ht as (_ & _ & _ & _ & _ & ->). reflexivity.
Qed.


End AnyHelpers.

Lemma route_and_keys_witness :
  exists props,
    ContributeTier (TierUtils.isTierExpired 500) (Events.isPastEvent 500)
      endedEvent (withType TierTypes.TICKET plainTier) = Js.Normal props /\
    ContributeProps.routeParams props !! "verb"%string = Some (PString "events") /\
    ContributeProps.routeParams props !! "tierSlug"%string = None.
Proof.
  eexists. split; [reflexivity|].
  refine (proj1 (proj2
    (route_and_keys (TierUtils.isTierExpired 500) (Events.isPastEvent 500)
       endedEvent (withType TierTypes.TICKET plainTier) _ _)) _); reflexivity.
Defined.

Lemma read_more_link_params_witness :
  exists props,
    ContributeTier (TierUtils.isTierExpired 500) (Events.isPastEvent 500)
      activeCollective plainTier = Js.Normal props /\
    ContributeProps.routeParams props = readMoreParams activeCollective plainTier.
Proof.
  eexists. split; [reflexivity|].
  refine (proj1
    (read_more_link_params (TierUtils.isTierExpired 500) (Events.isPastEvent 500)
       activeCollective plainTier _ _) _); [reflexivity | discriminate].
Defined.

Lemma amount_shown_exactly_when_witness :
  showAmount (TierUtils.isTierExpired 500) (Events.isPastEvent 500)
    activeCollective plainTier = true /\
  exists x, minAmount plainTier = Js.Number x /\ Js.ltb (Js.num 0) x = true.
Proof.
  split; [vm_compute; reflexivity|].
  refine (proj1 (proj2
    (amount_shown_exactly_when (TierUtils.isTierExpired 500) (Events.isPastEvent 500)
       activeCollective plainTier)) _).
  vm_compute; reflexivity.
Defined.

Lemma raised_agrees_with_category_witness :
  raised (withInterval "month" plainTier)
  = Stats.totalRecurringDonations (Tier.stats (withInterval "month" plainTier)).
Proof.
  refine (proj1
    (raised_agrees_with_category (TierUtils.isTierExpired 500)
       (withInterval "month" plainTier)) _).
  reflexivity.
Defined.


Lemma card_throws_exactly_when_witness :
  ContributeTier (TierUtils.isTierExpired 500) (Events.isPastEvent 500)
    orphanEvent (withType TierTypes.TICKET plainTier) = Js.ThrowTypeError.
Proof.
  apply (proj2 (card_throws_exactly_when (TierUtils.isTierExpired 500)
                  (Events.isPastEvent 500) orphanEvent
                  (withType TierTypes.TICKET plainTier))).
  repeat split; reflexivity.
Defined.

End ContributeTierCardFacts.

(** *** Numbers: signs, zero factors, equality *)

Module JsOpsFacts.
Import Js JsOps.

Lemma shr_fexp_nonneg m e l :
  0 <= m -> 0 <= shr_m (fst (shr_fexp prec emax m e l)).
Proof.
  intros Hm. unfold shr_fexp, shr.
  destruct (fexp prec emax (Zdigits2 m + e) - e) as [|n|n]; cbn [fst];
    rewrite ?JsFacts.iter_shr_1_m by (rewrite JsFacts.shr_m_of_loc; lia);
    rewrite JsFacts.shr_m_of_loc; try lia.
  apply Z.div_pos; [lia|]. apply Z.pow_pos_nonneg; lia.
Qed.

(** Rounding a non-negative mantissa keeps the sign it is given and never
    makes NaN. *)
Lemma binary_round_aux_signbit s m e l :
  0 <= m ->
  signbit (binary_round_aux prec emax s m e l) = s /\
  binary_round_aux prec emax s m e l <> S754_nan.
Proof.
  intros Hm. unfold binary_round_aux.
  pose proof (shr_fexp_nonneg m e l Hm) as H1.
  destruct (shr_fexp prec emax m e l) as [mrs' e']. cbn [fst] in H1.
  pose proof (JsFacts.round_nearest_even_bounds (shr_m mrs') (loc_of_shr_record mrs')) as Hr.
  set (m1 := round_nearest_even (shr_m mrs') (loc_of_shr_record mrs')) in *.
  pose proof (shr_fexp_nonneg m1 e' loc_Exact ltac:(lia)) as H2.
  destruct (shr_fexp prec emax m1 e' loc_Exact) as [mrs'' e'']. cbn [fst] in H2.
  destruct (shr_m mrs'') as [|p|p]; [split; [reflexivity | discriminate]| |lia].
  destruct (e'' <=? emax - prec); split; (reflexivity || discriminate).
Qed.

Lemma mul_signbit x y :
  signbit x = false -> signbit y = false -> signbit (mul x y) = false.
Proof.
  destruct x as [sx|sx| |sx mx ex], y as [sy|sy| |sy my ey]; cbn [signbit];
    intros Hx Hy; subst; try reflexivity.
  apply (binary_round_aux_signbit false (Zpos (mx * my)) (ex + ey) loc_Exact). lia.
Qed.

Lemma div_signbit x y :
  signbit x = false -> signbit y = false -> signbit (div x y) = false.
Proof.
  destruct x as [sx|sx| |sx mx ex], y as [sy|sy| |sy my ey]; cbn [signbit];
    intros Hx Hy; subst; try reflexivity.
  unfold div. cbn [SFdiv xorb].
  pose proof (JsFacts.div_core_canonical (Zpos mx) ex (Zpos my) ey ltac:(lia) ltac:(lia)) as H.
  destruct (SFdiv_core_binary prec emax (Zpos mx) ex (Zpos my) ey) as [[q e'] l].
  destruct H as [Hq _]. apply binary_round_aux_signbit, Hq.
Qed.

Lemma floor_plus_half_sign (s : bool) (m : positive) (e : Z) :
  e < 0 ->
  if s then floor_plus_half (signed s m) e <= 0 else 0 <= floor_plus_half (signed s m) e.
Proof.
  intros He. unfold floor_plus_half.
  assert (Hd : 0 < 2 ^ (- e)) by (apply Z.pow_pos_nonneg; lia).
  destruct s; cbn [signed cond_Zopp].
  - assert (H : (2 * - Zpos m + 2 ^ (- e)) / (2 * 2 ^ (- e)) < 1)
      by (apply Z.div_lt_upper_bound; lia).
    lia.
  - apply Z.div_pos; lia.
Qed.

(** [Math.round] keeps the sign bit. *)
Lemma Math_round_signbit x : signbit (Math_round x) = signbit x.
Proof.
  destruct x as [s|s| |s m e]; try reflexivity.
  unfold Math_round. destruct (Z.ltb_spec e 0) as [He|He]; [|reflexivity].
  pose proof (floor_plus_half_sign s m e He) as Hs.
  destruct (Z.eqb_spec (floor_plus_half (signed s m) e) 0) as [H0|H0]; [reflexivity|].
  unfold num, binary_normalize, binary_round.
  destruct (floor_plus_half (signed s m) e) as [|p|p]; [contradiction| |].
  - destruct s; [lia|].
    destruct (shl_align p 0 (fexp prec emax (Zpos (digits2_pos p) + 0))) as [mz ez].
    apply binary_round_aux_signbit. lia.
  - destruct s; [|lia].
    destruct (shl_align p 0 (fexp prec emax (Zpos (digits2_pos p) + 0))) as [mz ez].
    apply binary_round_aux_signbit. lia.
Qed.

(** A number without sign bit is not below zero. *)
Lemma unsigned_not_below_zero x : signbit x = false -> ltb x (num 0) = false.
Proof. destruct x as [s|s| |s m e]; cbn [signbit]; intros H; subst; reflexivity. Qed.

(** A finite number times a zero is a zero. *)
Lemma mul_zero_r x s :
  is_finite x = true -> mul x (S754_zero s) = S754_zero (xorb (signbit x) s).
Proof. destruct x as [sx|sx| |sx mx ex]; cbn; intros H; (discriminate || reflexivity). Qed.

(** Subtracting [+0] changes nothing. *)
Lemma sub_zero_r x : sub x (S754_zero false) = x.
Proof. destruct x as [[]|[]| |sx mx ex]; reflexivity. Qed.

(** A number other than NaN equals itself. *)
Lemma number_eq_refl x : x <> S754_nan -> number_eq x x = true.
Proof.
  unfold number_eq, SFeqb.
  destruct x as [s|[]| |[] m e]; cbn; intros H; try reflexivity; try contradiction;
    rewrite Z.compare_refl, Pos.compare_cont_refl; reflexivity.
Qed.

End JsOpsFacts.

(** *** The add-funds modal: host-fee field, submission, fees *)

Module AddFundsModalFormFacts.
Import AddFundsModal AddFundsModalForm Samples CardSamples.

(** X8.  The host-fee field is hidden ([canAddHostFee] is false) when host
    and collective are the same account, and also when they are the v2 and
    the v1 record of one account: a legacy id on one side, the same number
    as the id on the other.  It is shown whenever one side is known by a
    string and the other by a number. *)
Theorem host_fee_field_hidden_for_own_host (host collective : Account.t) :
  (host = collective ->
   legacyIdOrId collective <> KeyNumber S754_nan ->
   canAddHostFee host collective = false) /\
  (forall n,
     Account.legacyId collective = Js.Number n ->
     Js.truthy (Js.Number n) = true ->
     Js.truthy (Account.legacyId host) = false ->
     Account.id host = IdNumber n ->
     canAddHostFee host collective = false) /\
  (forall s x,
     legacyIdOrId collective = KeyString s ->
     legacyIdOrId host = KeyNumber x ->
     canAddHostFee host collective = true).
Proof.
  split; [|split].
  - intros -> Hk. unfold canAddHostFee.
    destruct (legacyIdOrId collective) as [| |x|s]; cbn; try reflexivity.
    + rewrite JsOpsFacts.number_eq_refl; [reflexivity | congruence].
    + rewrite String.eqb_refl. reflexivity.
  - intros n Hc Ht Hh Hi. unfold canAddHostFee, legacyIdOrId.
    rewrite Hc, Ht, Hi.
    assert (Hkey : match Account.legacyId host with
                   | Js.Number x =>
                       if Js.truthy (Js.Number x) then KeyNumber x else keyOfId (IdNumber n)
                   | _ => keyOfId (IdNumber n)
                   end = KeyNumber n).
    { destruct (Account.legacyId host) as [| |x]; try reflexivity.
      rewrite Hh. reflexivity. }
    rewrite Hkey. cbn [strict_eq].
    rewrite JsOpsFacts.number_eq_refl; [reflexivity|].
    intros ->. discriminate Ht.
  - intros s x Hc Hh. unfold canAddHostFee. rewrite Hc, Hh. reflexivity.
Qed.

Lemma host_fee_field_hidden_for_own_host_witness :
  canAddHostFee accountV1 accountV2 = false /\
  canAddHostFee accountV2 accountV2 = false.
Proof.
  split.
  - refine (proj1 (proj2 (host_fee_field_hidden_for_own_host accountV1 accountV2))
              (Js.num 9805) _ _ _ _); reflexivity.
  - refine (proj1 (host_fee_field_hidden_for_own_host accountV2 accountV2) _ _);
      [reflexivity | discriminate].
Defined.

(** X9.  Submitting fails exactly when the form state has no source
    account or no target account.  Otherwise the variables carry the
    fields as they are in the form state: the amount under [valueInCents],
    the description and both percentages.  In particular a host percentage
    that is not a number is sent as it is, although the details were
    computed with the collective's default rate. *)
Theorem submit_sends_fields_as_entered (values : FormValues.t) :
  (onSubmit values = Js.ThrowTypeError <->
     FormValues.fromAccount values = None \/ FormValues.account values = None) /\
  (forall variables,
     onSubmit values = Js.Normal variables ->
     AddFundsVariables.amount_valueInCents variables = FormValues.amount values /\
     AddFundsVariables.description variables = FormValues.description values /\
     AddFundsVariables.hostFeePercent variables = FormValues.hostFeePercent values /\
     AddFundsVariables.platformFeePercent variables = FormValues.platformFeePercent values /\
     (Js.isNaN (FormValues.hostFeePercent values) = true ->
      forall defaultHostFeePercent,
        hostFeePercent defaultHostFeePercent values = defaultHostFeePercent /\
        Js.isNaN (AddFundsVariables.hostFeePercent variables) = true)).
Proof.
  unfold onSubmit, buildAccountReference.
  destruct (FormValues.fromAccount values) as [source|];
    [destruct (Account.id source)|];
    (destruct (FormValues.account values) as [target|];
     [destruct (Account.id target)|]);
    (split;
     [split; [first [discriminate | intros _; auto]
             |first [reflexivity | intros [?|?]; discriminate]]
     |first
        [discriminate
        |intros variables [= <-];
         cbn [AddFundsVariables.amount_valueInCents AddFundsVariables.description
              AddFundsVariables.hostFeePercent AddFundsVariables.platformFeePercent];
         split; [reflexivity|]; split; [reflexivity|]; split; [reflexivity|];
         split; [reflexivity|];
         intros Hn d; split; [unfold hostFeePercent; rewrite Hn; reflexivity | exact Hn]]]).
Qed.

Lemma submit_sends_fields_as_entered_witness :
  exists variables,
    onSubmit clearedHostFee = Js.Normal variables /\
    hostFeePercent (number 15) clearedHostFee = number 15 /\
    Js.isNaN (AddFundsVariables.hostFeePercent variables) = true.
Proof.
  eexists. split; [reflexivity|].
  refine (proj2 (proj2 (proj2 (proj2
    (proj2 (submit_sends_fields_as_entered clearedHostFee) _ _)))) _ (number 15));
    reflexivity.
Defined.

(** X10.  The form of a logged-in user starts with no amount, the
    collective's host percentage, platform percentage 0, an empty
    description and no source, and its target account is the collective.
    Once a source account is picked, submitting returns: the target
    reference is built from the collective, the source reference from the
    picked account. *)
Theorem modal_submits_to_its_collective
    (user : User.t) (host collective source : Account.t) (element : ModalElement.t) :
  AddFundsModal (Some user) host collective = Some element ->
  ModalElement.initialValues element
  = {| FormValues.amount := Js.Null;
       FormValues.hostFeePercent := Account.hostFeePercent collective;
       FormValues.platformFeePercent := Js.Number (Js.num 0);
       FormValues.description := EmptyString;
       FormValues.fromAccount := None;
       FormValues.account := Some collective |} /\
  ModalElement.onSubmit element (ModalElement.initialValues element) = Js.ThrowTypeError /\
  exists variables,
    ModalElement.onSubmit element (setFromAccount source (ModalElement.initialValues element))
    = Js.Normal variables /\
    buildAccountReference (Some collective) = Js.Normal (AddFundsVariables.account variables) /\
    buildAccountReference (Some source) = Js.Normal (AddFundsVariables.fromAccount variables) /\
    AddFundsVariables.hostFeePercent variables = Account.hostFeePercent collective.
Proof.
  intros [= <-]. cbn [ModalElement.initialValues ModalElement.onSubmit].
  split; [reflexivity|]. split; [reflexivity|].
  unfold onSubmit, setFromAccount, getInitialValues.
  cbn [FormValues.fromAccount FormValues.account o_account o_fromAccount
       o_hostFeePercent FormValues.hostFeePercent default].
  unfold buildAccountReference.
  destruct (Account.id source), (Account.id collective);
    eexists; (split; [reflexivity|]); cbn; repeat split; reflexivity.
Qed.

Lemma modal_submits_to_its_collective_witness :
  exists element variables,
    AddFundsModal (Some {| User.isRoot := false |}) accountV1 accountV2 = Some element /\
    ModalElement.onSubmit element (setFromAccount accountV1 (ModalElement.initialValues element))
    = Js.Normal variables /\
    buildAccountReference (Some accountV2) = Js.Normal (AddFundsVariables.account variables).
Proof.
  eexists.
  destruct (modal_submits_to_its_collective {| User.isRoot := false |}
              accountV1 accountV2 accountV1 _ eq_refl) as (_ & _ & variables & H1 & H2 & _).
  exists variables. split; [reflexivity|]. split; [exact H1 | exact H2].
Defined.

(** X11.  A platform percentage in force of [+0] (the field at 0, [null],
    or not a number and so replaced by 0) takes nothing from a finite
    amount that is not negative: the platform fee is [+0] and the net
    amount is the amount minus the host fee. *)
Theorem zero_platform_percent_takes_nothing
    (defaultHostFeePercent : Js.value) (values : FormValues.t) :
  Js.ToNumber (platformFeePercent values) = S754_zero false ->
  JsOps.is_finite (Js.ToNumber (FormValues.amount values)) = true ->
  JsOps.signbit (Js.ToNumber (FormValues.amount values)) = false ->
  platformFee values = S754_zero false /\
  netAmount defaultHostFeePercent values
  = Js.sub (Js.ToNumber (FormValues.amount values)) (hostFee defaultHostFeePercent values).
Proof.
  intros Hp Hf Hs.
  assert (Hfee : platformFee values = S754_zero false).
  { unfold platformFee. rewrite Hp.
    change (Js.div (S754_zero false) (Js.num 100)) with (S754_zero false).
    rewrite JsOpsFacts.mul_zero_r by exact Hf. rewrite Hs. reflexivity. }
  split; [exact Hfee|].
  unfold netAmount. rewrite Hfee. apply JsOpsFacts.sub_zero_r.
Qed.

Lemma zero_platform_percent_takes_nothing_witness :
  platformFee clearedHostFee = S754_zero false /\
  netAmount (number 15) clearedHostFee
  = Js.sub (Js.num 1000) (hostFee (number 15) clearedHostFee).
Proof.
  refine (zero_platform_percent_takes_nothing (number 15) clearedHostFee _ _ _);
    vm_compute; reflexivity.
Defined.

(** X12.  An amount and a percentage in force without sign bit (not
    negative) never give a negative fee: neither the host fee nor the
    platform fee is below zero. *)
Theorem fees_are_not_negative
    (defaultHostFeePercent : Js.value) (values : FormValues.t) :
  JsOps.signbit (Js.ToNumber (FormValues.amount values)) = false ->
  (JsOps.signbit (Js.ToNumber (hostFeePercent defaultHostFeePercent values)) = false ->
   Js.ltb (hostFee defaultHostFeePercent values) (Js.num 0) = false) /\
  (JsOps.signbit (Js.ToNumber (platformFeePercent values)) = false ->
   Js.ltb (platformFee values) (Js.num 0) = false).
Proof.
  intros Ha.
  assert (H100 : JsOps.signbit (Js.num 100) = false) by (vm_compute; reflexivity).
  split; intros Hp; apply JsOpsFacts.unsigned_not_below_zero;
    unfold hostFee, platformFee; rewrite JsOpsFacts.Math_round_signbit;
    apply JsOpsFacts.mul_signbit; try exact Ha;
    apply JsOpsFacts.div_signbit; assumption.
Qed.

Lemma fees_are_not_negative_witness :
  Js.ltb (hostFee (number 15) clearedHostFee) (Js.num 0) = false /\
  Js.ltb (platformFee clearedHostFee) (Js.num 0) = false.
Proof.
  split.
  - refine (proj1 (fees_are_not_negative (number 15) clearedHostFee _) _);
      vm_compute; reflexivity.
  - refine (proj2 (fees_are_not_negative (number 15) clearedHostFee _) _);
      vm_compute; reflexivity.
Defined.

End AddFundsModalFormFacts.

(** *** Numbers: subtracting integers is exact *)

Module JsExactFacts.
Import Js JsOps.

Lemma shr_1_even (k : Z) :
  0 <= k ->
  shr_1 {| shr_m := 2 * k; shr_r := false; shr_s := false |}
  = {| shr_m := k; shr_r := false; shr_s := false |}.
Proof. destruct k as [|q|q]; [reflexivity | reflexivity | lia]. Qed.

(** Shifting out zeros loses nothing. *)
Lemma iter_shr_1_exact (p : positive) :
  forall k, 0 <= k ->
    SpecFloat.iter_pos shr_1 p {| shr_m := k * 2 ^ Zpos p; shr_r := false; shr_s := false |}
    = {| shr_m := k; shr_r := false; shr_s := false |}.
Proof.
  induction p as [p IH|p IH|]; intros k Hk; cbn [SpecFloat.iter_pos].
  - assert (Hp : 0 < 2 ^ Zpos p) by (apply Z.pow_pos_nonneg; lia).
    replace (k * 2 ^ Zpos p~1) with (2 * ((k * 2 ^ Zpos p) * 2 ^ Zpos p)).
    + rewrite shr_1_even by nia. rewrite IH by nia. apply IH, Hk.
    + replace (Zpos p~1) with (1 + Zpos p + Zpos p) by lia.
      rewrite !Z.pow_add_r by lia. lia.
  - assert (Hp : 0 < 2 ^ Zpos p) by (apply Z.pow_pos_nonneg; lia).
    replace (k * 2 ^ Zpos p~0) with ((k * 2 ^ Zpos p) * 2 ^ Zpos p).
    + rewrite IH by nia. apply IH, Hk.
    + replace (Zpos p~0) with (Zpos p + Zpos p) by lia.
      rewrite !Z.pow_add_r by lia. lia.
  - replace (k * 2 ^ 1) with (2 * k) by lia. apply shr_1_even, Hk.
Qed.

Lemma Zdigits2_mul_pow (k : positive) (n : Z) :
  0 <= n -> Zdigits2 (Zpos k * 2 ^ n) = Zpos (digits2_pos k) + n.
Proof.
  intros Hn. pose proof (JsFacts.digits2_pos_bounds k) as [Hlo Hhi].
  assert (Hp : 0 < 2 ^ n) by (apply Z.pow_pos_nonneg; lia).
  apply Z.le_antisymm.
  - apply JsFacts.Zdigits2_upper; [lia|]. rewrite Z.pow_add_r by lia. nia.
  - replace (Zpos (digits2_pos k) + n) with (Zpos (digits2_pos k) - 1 + n + 1) by lia.
    apply JsFacts.Zdigits2_lower; [lia|]. rewrite Z.pow_add_r by lia. nia.
Qed.

(** Rounding a mantissa [k * 2^n] whose [n] low zeros are exactly the ones
    to drop yields [k] with the exponent raised by [n]. *)
Lemma binary_round_aux_exact (s : bool) (k : positive) (n e : Z) :
  0 <= n ->
  fexp prec emax (Zpos (digits2_pos k) + n + e) = e + n ->
  e + n <= emax - prec ->
  binary_round_aux prec emax s (Zpos k * 2 ^ n) e loc_Exact = S754_finite s k (e + n).
Proof.
  intros Hn Hf He. unfold binary_round_aux.
  assert (Hfirst : shr_fexp prec emax (Zpos k * 2 ^ n) e loc_Exact
                   = ({| shr_m := Zpos k; shr_r := false; shr_s := false |}, e + n)).
  { unfold shr_fexp, shr. rewrite Zdigits2_mul_pow, Hf by lia.
    replace (e + n - e) with n by lia. cbn [shr_record_of_loc].
    destruct n as [|p|p]; [|rewrite iter_shr_1_exact by lia; reflexivity | lia].
    rewrite Z.add_0_r. f_equal. f_equal. simpl. lia. }
  rewrite Hfirst. cbn [shr_m loc_of_shr_record round_nearest_even].
  assert (Hsecond : shr_fexp prec emax (Zpos k) (e + n) loc_Exact
                    = ({| shr_m := Zpos k; shr_r := false; shr_s := false |}, e + n)).
  { unfold shr_fexp, shr. cbn [Zdigits2].
    replace (Zpos (digits2_pos k) + (e + n)) with (Zpos (digits2_pos k) + n + e) by lia.
    rewrite Hf, Z.sub_diag. reflexivity. }
  rewrite Hsecond. cbn [shr_m].
  destruct (Z.leb_spec (e + n) (emax - prec)); [reflexivity | lia].
Qed.

(** The value [m * 2^e] is the positive integer [v]. *)
Definition is_value (m : positive) (e v : Z) : Prop :=
  if e <? 0 then Zpos m = v * 2 ^ (- e) else v = Zpos m * 2 ^ e.

Lemma is_value_digits (m : positive) (e v : Z) :
  0 < v -> is_value m e v -> Zpos (digits2_pos m) + e = Zdigits2 v.
Proof.
  intros Hv. unfold is_value. destruct (Z.ltb_spec e 0) as [He|He]; intros H.
  - destruct v as [|q|q]; try lia.
    pose proof (Zdigits2_mul_pow q (- e) ltac:(lia)) as Hd.
    rewrite <- H in Hd. cbn [Zdigits2] in *. lia.
  - rewrite H. rewrite Zdigits2_mul_pow by lia. reflexivity.
Qed.

(** An integer below 2^53 given as [p * 2^ez] is normalised without loss. *)
Lemma binary_round_integer (s : bool) (p : positive) (ez v : Z) :
  0 < v < 2 ^ 53 -> is_value p ez v ->
  exists m e, binary_round prec emax s p ez = S754_finite s m e /\ is_value m e v.
Proof.
  intros Hv Hp.
  pose proof (is_value_digits p ez v ltac:(lia) Hp) as Hd.
  assert (Hdv : 1 <= Zdigits2 v <= 53).
  { split; [destruct v; simpl in *; lia | apply JsFacts.Zdigits2_upper; lia]. }
  set (f := Zdigits2 v - 53).
  assert (Hf : fexp prec emax (Zpos (digits2_pos p) + ez) = f)
    by (rewrite Hd; unfold fexp, emin, prec, emax, f; lia).
  assert (Hpf : 0 < 2 ^ (- f)) by (apply Z.pow_pos_nonneg; unfold f; lia).
  set (k := Z.to_pos (v * 2 ^ (- f))).
  assert (Hk : Zpos k = v * 2 ^ (- f)) by (unfold k; rewrite Z2Pos.id; nia).
  assert (Hdk : Zpos (digits2_pos k) = 53).
  { pose proof (Zdigits2_mul_pow (Z.to_pos v) (- f) ltac:(unfold f; lia)) as Hx.
    rewrite Z2Pos.id in Hx by lia. rewrite <- Hk in Hx. cbn [Zdigits2] in Hx.
    assert (Hvv : Zpos (digits2_pos (Z.to_pos v)) = Zdigits2 v)
      by (destruct v; simpl in *; lia).
    unfold f in *. lia. }
  assert (Hfk : forall n, fexp prec emax (Zpos (digits2_pos k) + n + (f - n)) = f - n + n).
  { intros n. rewrite Hdk. unfold fexp, emin, prec, emax, f in *. lia. }
  exists k, f. split.
  - unfold binary_round. rewrite Hf. unfold shl_align.
    destruct (f - ez) as [|q|q] eqn:Hq.
    + assert (Hfe : f = ez) by lia.
      assert (Hpk : p = k).
      { apply Pos2Z.inj. rewrite Hk. unfold is_value in Hp. rewrite <- Hfe in Hp.
        destruct (Z.ltb_spec f 0); [exact Hp|].
        replace f with 0 in * by (unfold f in *; lia). simpl in *. lia. }
      rewrite Hpk, <- Hfe.
      replace (Zpos k) with (Zpos k * 2 ^ 0) by (simpl; lia).
      replace f with (f - 0 + 0) at 2 by lia.
      replace f with (f - 0) at 1 by lia.
      apply binary_round_aux_exact; [lia | apply Hfk | unfold prec, emax, f; lia].
    + assert (Hez : ez < 0) by (unfold f in *; lia).
      assert (Hpz : Zpos p = Zpos k * 2 ^ Zpos q).
      { unfold is_value in Hp. destruct (Z.ltb_spec ez 0); [|lia].
        rewrite Hp, Hk, <- Z.mul_assoc, <- Z.pow_add_r by (unfold f in *; lia).
        f_equal. f_equal. lia. }
      rewrite Hpz. replace ez with (f - Zpos q) by lia.
      replace f with (f - Zpos q + Zpos q) at 2 by lia.
      apply binary_round_aux_exact; [lia | apply Hfk | unfold prec, emax, f; lia].
    + assert (Hmz : Pos.iter xO p q = k).
      { apply Pos2Z.inj. rewrite JsFacts.Zpos_iter_xO, Hk.
        unfold is_value in Hp. destruct (Z.ltb_spec ez 0).
        - rewrite Hp, <- Z.mul_assoc, <- Z.pow_add_r by lia. f_equal. f_equal. lia.
        - rewrite Hp, <- Z.mul_assoc, <- Z.pow_add_r by lia. f_equal. f_equal. lia. }
      rewrite Hmz.
      replace (Zpos k) with (Zpos k * 2 ^ 0) by (simpl; lia).
      replace f with (f - 0 + 0) at 2 by lia.
      replace f with (f - 0) at 1 by lia.
      apply binary_round_aux_exact; [lia | apply Hfk | unfold prec, emax, f; lia].
  - unfold is_value. destruct (Z.ltb_spec f 0); [exact Hk|].
    replace f with 0 in * by (unfold f in *; lia). simpl in *. lia.
Qed.

Lemma shl_align_fst (m : positive) (e ez : Z) :
  ez <= e -> Zpos (fst (shl_align m e ez)) = Zpos m * 2 ^ (e - ez).
Proof.
  intros H. unfold shl_align. destruct (ez - e) as [|q|q] eqn:Hq; cbn [fst].
  - replace (e - ez) with 0 by lia. simpl. lia.
  - lia.
  - rewrite JsFacts.Zpos_iter_xO. f_equal. f_equal. lia.
Qed.

Lemma cond_Zopp_mul (s : bool) (a b : Z) : cond_Zopp s a * b = cond_Zopp s (a * b).
Proof. destruct s; cbn; lia. Qed.

Lemma mul_pow_eq (a u v : Z) : u = v -> a * 2 ^ u = a * 2 ^ v.
Proof. intros ->. reflexivity. Qed.

(** A mantissa aligned to a lower exponent still stands for the integer. *)
Lemma represents_aligned (s : bool) (m : positive) (e ez a : Z) :
  ez <= e -> represents (S754_finite s m e) a ->
  if ez <? 0
  then cond_Zopp s (Zpos (fst (shl_align m e ez))) = a * 2 ^ (- ez)
  else a = cond_Zopp s (Zpos (fst (shl_align m e ez))) * 2 ^ ez.
Proof.
  intros Hle Hr. rewrite shl_align_fst by exact Hle. rewrite <- cond_Zopp_mul.
  unfold represents, signed in Hr.
  destruct (Z.ltb_spec ez 0) as [Hz|Hz], (Z.ltb_spec e 0) as [He|He]; try lia.
  - rewrite Hr, <- Z.mul_assoc, <- Z.pow_add_r by lia. apply mul_pow_eq. lia.
  - rewrite Hr, <- !Z.mul_assoc, <- Z.pow_add_r by lia. apply mul_pow_eq. lia.
  - rewrite Hr, <- !Z.mul_assoc, <- Z.pow_add_r by lia. apply mul_pow_eq. lia.
Qed.

(** The difference of two integers is exact while it stays below 2^53. *)
Lemma sub_exact (x y : spec_float) (a b : Z) :
  represents x a -> represents y b -> Z.abs (a - b) < 2 ^ 53 ->
  represents (sub x y) (a - b).
Proof.
  destruct x as [sx|sx| |sx mx ex], y as [sy|sy| |sy my ey]; cbn [represents];
    try contradiction.
  - intros -> -> _. destruct sx, sy; reflexivity.
  - intros -> Hb _. unfold sub. cbn [SFsub represents]. unfold signed in *.
    destruct (ey <? 0), sy; cbn [negb cond_Zopp] in *; lia.
  - intros Ha -> _. unfold sub. cbn [SFsub represents].
    destruct (ex <? 0); lia.
  - intros Ha Hb Hlt. unfold sub. cbn [SFsub].
    set (ez := Z.min ex ey).
    pose proof (represents_aligned sx mx ex ez a ltac:(unfold ez; lia) Ha) as Hx.
    pose proof (represents_aligned sy my ey ez b ltac:(unfold ez; lia) Hb) as Hy.
    set (dx := cond_Zopp sx (Zpos (fst (shl_align mx ex ez)))) in *.
    set (dy := cond_Zopp sy (Zpos (fst (shl_align my ey ez)))) in *.
    assert (HD : if ez <? 0 then dx - dy = (a - b) * 2 ^ (- ez)
                 else a - b = (dx - dy) * 2 ^ ez).
    { destruct (ez <? 0); lia. }
    clearbody dx dy. clear Hx Hy Ha Hb.
    assert (Hpz : 0 < 2 ^ (- ez) /\ 0 < 2 ^ ez \/ ez < 0 /\ 0 < 2 ^ (- ez) \/ 0 <= ez /\ 0 < 2 ^ ez).
    { destruct (Z.lt_ge_cases ez 0); [right; left | right; right];
        (split; [lia | apply Z.pow_pos_nonneg; lia]). }
    unfold binary_normalize. destruct (dx - dy) as [|p|p] eqn:HDv.
    + cbn [represents]. destruct (Z.ltb_spec ez 0); nia.
    + destruct (binary_round_integer false p ez (a - b)) as (m & e & -> & Hv).
      { destruct (Z.ltb_spec ez 0); nia. }
      { unfold is_value. destruct (Z.ltb_spec ez 0); lia. }
      cbn [represents]. unfold is_value in Hv. unfold signed. cbn [cond_Zopp].
      destruct (e <? 0); lia.
    + destruct (binary_round_integer true p ez (- (a - b))) as (m & e & -> & Hv).
      { destruct (Z.ltb_spec ez 0); nia. }
      { unfold is_value. destruct (Z.ltb_spec ez 0); lia. }
      cbn [represents]. unfold is_value in Hv. unfold signed. cbn [cond_Zopp].
      destruct (e <? 0); lia.
Qed.

(** [Math.round] of a finite binary64 number is an integer. *)
Lemma Math_round_integer (x : spec_float) :
  is_binary64 x = true -> is_finite x = true -> exists n, represents (Math_round x) n.
Proof.
  intros Hv Hf. pose proof (JsFacts.Math_round_nearest x Hv) as Hn.
  destruct x as [s|s| |s m e]; try discriminate.
  - exists 0. reflexivity.
  - destruct Hn as (n & Hn & _). exists n. exact Hn.
Qed.

(** [Math.round] leaves an integer as it is. *)
Lemma Math_round_of_integer (x : spec_float) (a : Z) :
  is_binary64 x = true -> represents x a -> represents (Math_round x) a.
Proof.
  intros Hv Ha. destruct x as [s|s| |s m e]; try exact Ha.
  unfold Math_round. cbn [represents] in Ha. revert Ha.
  destruct (Z.ltb_spec e 0) as [He|He]; intros Ha;
    [|cbn [represents]; destruct (Z.ltb_spec e 0); [lia | exact Ha]].
  assert (Hd : 0 < 2 ^ (- e)) by (apply Z.pow_pos_nonneg; lia).
  assert (Hn : floor_plus_half (signed s m) e = a).
  { unfold floor_plus_half. rewrite Ha. symmetry.
    set (d := 2 ^ (- e)) in *.
    apply Z.div_unique with d; [lia | ring]. }
  rewrite Hn.
  assert (Ha0 : a <> 0) by (intros ->; unfold signed in Ha; destruct s; cbn in Ha; lia).
  destruct (Z.eqb_spec a 0); [contradiction|].
  apply JsFacts.num_exact. rewrite <- Hn.
  apply JsFacts.floor_plus_half_small; [exact He | exact (JsFacts.is_binary64_mantissa _ _ _ Hv)].
Qed.

(** Multiplying a binary64 number by one changes nothing. *)
Lemma mul_one_r (x : spec_float) :
  is_binary64 x = true -> mul x (S754_finite false 4503599627370496 (-52)) = x.
Proof.
  destruct x as [s|s| |s m e]; cbn [mul SFmul]; intros Hv.
  - destruct s; reflexivity.
  - destruct s; reflexivity.
  - reflexivity.
  - unfold mul. cbn [SFmul]. rewrite xorb_false_r.
    unfold is_binary64, valid_binary, bounded in Hv.
    apply andb_prop in Hv as [Hc Hb].
    unfold canonical_mantissa in Hc. apply Z.eqb_eq in Hc. apply Z.leb_le in Hb.
    replace (Zpos (m * 4503599627370496)) with (Zpos m * 2 ^ 52) by (rewrite Pos2Z.inj_mul; reflexivity).
    replace (S754_finite s m e) with (S754_finite s m (e + -52 + 52)) by (f_equal; lia).
    apply binary_round_aux_exact; [lia | | unfold prec, emax in *; lia].
    replace (Zpos (digits2_pos m) + 52 + (e + -52)) with (Zpos (digits2_pos m) + e) by lia.
    rewrite Hc. lia.
Qed.

End JsExactFacts.

(** *** The add-funds modal: the details add up *)

Module AddFundsModalTotalsFacts.
Import AddFundsModal Samples CardSamples.

(** X13.  For an amount that is an integer [a] and percentages in force
    whose fee products are finite, the two fees are integers [h] and [p],
    and as long as the differences stay below 2^53 the net amount is the
    integer [a - h - p] exactly: the amount is the sum of the three lines,
    with no rounding error in the subtractions. *)
Theorem details_add_up
    (defaultHostFeePercent : Js.value) (values : FormValues.t) (a : Z) :
  Js.is_binary64 (Js.ToNumber (FormValues.amount values)) = true ->
  Js.represents (Js.ToNumber (FormValues.amount values)) a ->
  JsOps.is_finite
    (feeProduct (FormValues.amount values) (hostFeePercent defaultHostFeePercent values))
  = true ->
  JsOps.is_finite
    (feeProduct (FormValues.amount values) (platformFeePercent values)) = true ->
  exists h p : Z,
    Js.represents (hostFee defaultHostFeePercent values) h /\
    Js.represents (platformFee values) p /\
    (Z.abs (a - h) < 2 ^ 53 -> Z.abs (a - h - p) < 2 ^ 53 ->
     Js.represents (netAmount defaultHostFeePercent values) (a - h - p)).
Proof.
  intros Hv Ha Hfh Hfp.
  destruct (JsExactFacts.Math_round_integer _
              (AddFundsModalFacts.feeProduct_binary64 _ _ Hv) Hfh) as [h Hh].
  destruct (JsExactFacts.Math_round_integer _
              (AddFundsModalFacts.feeProduct_binary64 _ _ Hv) Hfp) as [p Hp].
  exists h, p. split; [exact Hh|]. split; [exact Hp|].
  intros B1 B2. unfold netAmount.
  apply JsExactFacts.sub_exact; [|exact Hp | exact B2].
  apply JsExactFacts.sub_exact; [exact Ha | exact Hh | exact B1].
Qed.

Lemma details_add_up_witness :
  exists h p : Z,
    Js.represents (hostFee (number 15) clearedHostFee) h /\
    Js.represents (platformFee clearedHostFee) p /\
    (Z.abs (1000 - h) < 2 ^ 53 -> Z.abs (1000 - h - p) < 2 ^ 53 ->
     Js.represents (netAmount (number 15) clearedHostFee) (1000 - h - p)).
Proof.
  refine (details_add_up (number 15) clearedHostFee 1000 _ _ _ _);
    vm_compute; reflexivity.
Defined.

(** X14.  When the host percentage of the form is not a number and the
    collective has no default rate either (absent, or not a number), the
    host fee and the net amount are NaN whatever the amount. *)
Theorem missing_default_rate_gives_nan
    (defaultHostFeePercent : Js.value) (values : FormValues.t) :
  Js.isNaN (FormValues.hostFeePercent values) = true ->
  Js.isNaN defaultHostFeePercent = true ->
  hostFee defaultHostFeePercent values = Js.NaN /\
  netAmount defaultHostFeePercent values = Js.NaN.
Proof.
  intros Hf Hd.
  assert (Hh : hostFee defaultHostFeePercent values = Js.NaN).
  { unfold hostFee, hostFeePercent. rewrite Hf.
    unfold Js.isNaN in Hd. destruct (Js.ToNumber defaultHostFeePercent); try discriminate.
    destruct (Js.ToNumber (FormValues.amount values)); reflexivity. }
  split; [exact Hh|]. unfold netAmount. rewrite Hh.
  destruct (Js.ToNumber (FormValues.amount values)), (platformFee values); reflexivity.
Qed.

Lemma missing_default_rate_gives_nan_witness :
  hostFee Js.Undefined clearedHostFee = Js.NaN /\
  netAmount Js.Undefined clearedHostFee = Js.NaN.
Proof.
  refine (missing_default_rate_gives_nan Js.Undefined clearedHostFee _ _); reflexivity.
Defined.

(** X15.  At a host percentage in force of 100 the host fee of an integer
    amount is the whole amount, exactly, and the net amount is what the
    platform fee takes below zero. *)
Theorem full_host_fee_takes_all
    (defaultHostFeePercent : Js.value) (values : FormValues.t) (a : Z) :
  Js.ToNumber (hostFeePercent defaultHostFeePercent values) = Js.num 100 ->
  Js.is_binary64 (Js.ToNumber (FormValues.amount values)) = true ->
  Js.represents (Js.ToNumber (FormValues.amount values)) a ->
  Js.represents (hostFee defaultHostFeePercent values) a /\
  (forall p,
     Js.represents (platformFee values) p -> Z.abs p < 2 ^ 53 ->
     Js.represents (netAmount defaultHostFeePercent values) (- p)).
Proof.
  intros Hp Hv Ha.
  assert (Hh : Js.represents (hostFee defaultHostFeePercent values) a).
  { unfold hostFee. rewrite Hp.
    replace (Js.div (Js.num 100) (Js.num 100))
      with (S754_finite false 4503599627370496 (-52)) by (vm_compute; reflexivity).
    rewrite JsExactFacts.mul_one_r by exact Hv.
    apply JsExactFacts.Math_round_of_integer; assumption. }
  split; [exact Hh|].
  intros p Hpf Hb. unfold netAmount.
  replace (- p) with (a - a - p) by lia.
  apply JsExactFacts.sub_exact; [|exact Hpf | lia].
  apply JsExactFacts.sub_exact; [exact Ha | exact Hh | lia].
Qed.

Lemma full_host_fee_takes_all_witness :
  Js.represents (hostFee (number 100) clearedHostFee) 1000.
Proof.
  refine (proj1 (full_host_fee_takes_all (number 100) clearedHostFee 1000 _ _ _));
    vm_compute; reflexivity.
Defined.

End AddFundsModalTotalsFacts.
